(** * OG-UK example driver ([examples/run_oguk.py]): a shallow embedding

    The script is orchestration glue: it configures two parameter
    specifications, calls an external calibration engine, an external
    model runner and external reporting utilities, and releases a
    distributed-execution client.  The embedding below follows the source
    statement by statement in a small state-and-exception monad.  The
    external collaborators are the fields of a record [Env]; the objects
    they own (the OpenFisca parameter tree, the ogcore specification
    object) are modelled from their documented behaviour. *)

From Stdlib Require Import ZArith Lia Ascii String.
From stdpp Require Import base option list strings gmap fin_maps.

Local Open Scope string_scope.
Local Open Scope list_scope.
Local Open Scope Z_scope.

(** ** Python values, exceptions and the effect monad *)

(** The values that appear in the script's literals and mappings.
    [VFloat m e] is the decimal literal [m * 10^e] (so [5e-3] is
    [VFloat 5 (-3)]); [VData n] stands for an opaque numeric array
    produced by a collaborator. *)
#[warnings="-register-all"]
Inductive value : Type :=
  | VNone
  | VBool (b : bool)
  | VInt (z : Z)
  | VFloat (m e : Z)
  | VStr (s : string)
  | VList (l : list value)
  | VData (n : N).

(** Python exceptions that the script or its collaborators can raise. *)
Inductive exn : Type :=
  | NameError (name : string)
  | KeyError (key : string)
  | AttributeError (attr : string)
  | TypeError (msg : string)
  | ValueError (msg : string)
  | SystemExit (code : Z)
  | ExternalError (who : string).

Inductive result (A : Type) : Type :=
  | Ok (a : A)
  | Raise (e : exn).
Arguments Ok {A} a.
Arguments Raise {A} e.

(** A computation over a store [S] that either returns or raises; the
    store is threaded through in both cases, since Python keeps the
    effects performed before an exception. *)
Definition M (S A : Type) : Type := S -> result A * S.

Definition ret {S A} (a : A) : M S A := fun s => (Ok a, s).
Definition raise {S A} (e : exn) : M S A := fun s => (Raise e, s).
Definition bind {S A B} (m : M S A) (k : A -> M S B) : M S B :=
  fun s => match m s with
           | (Ok a, s') => k a s'
           | (Raise e, s') => (Raise e, s')
           end.
Definition lift {S A} (r : result A) : M S A := fun s => (r, s).

Notation "'let*' x := m 'in' k" := (bind m (fun x => k))
  (at level 10, x name, m at level 100, k at level 200, only parsing).

(** ** The OpenFisca policy-parameter store *)

(** Objects live in a store and are referred to by location, so that the
    aliasing of Python references is visible. *)
Definition loc := positive.

(** An instant is an ISO basic date [YYYYMMDD]. *)
Definition instant := Z.

(** A parameter node has named children; a parameter holds its dated
    values, most recent first. *)
Inductive pobj : Type :=
  | PNode (children : gmap string loc)
  | PParam (values_list : list (instant * value)).

Abbreviation pheap := (gmap loc pobj).
Abbreviation PM := (M pheap).

(** Attribute access [o.attr] on a parameter node. *)
Definition getattr (o : loc) (attr : string) : PM loc :=
  fun h => match h !! o with
           | Some (PNode children) =>
               match children !! attr with
               | Some c => (Ok c, h)
               | None => (Raise (AttributeError attr), h)
               end
           | _ => (Raise (AttributeError attr), h)
           end.

Definition digit_of_ascii (c : ascii) : option Z :=
  let n := Z.of_N (N_of_ascii c) in
  if (48 <=? n) && (n <=? 57) then Some (n - 48) else None.

Fixpoint digits_acc (s : string) (acc : Z) : option Z :=
  match s with
  | EmptyString => Some acc
  | String c s' =>
      match digit_of_ascii c with
      | Some d => digits_acc s' (10 * acc + d)
      | None => None
      end
  end.

(** Modelled from the spec: the start of a period given as a year string
    (the reform is "effective starting at the specified period"); the
    period type belongs to the external microsimulation engine. *)
Definition period_start (period : string) : option instant :=
  match period with
  | EmptyString => None
  | _ => match digits_acc period 0 with
         | Some y => Some (y * 10000 + 101)
         | None => None
         end
  end.

Fixpoint drop_from (start : instant) (vs : list (instant * value))
  : list (instant * value) :=
  match vs with
  | [] => []
  | (i, v) :: vs' => if start <=? i then drop_from start vs' else vs
  end.

(** Modelled from the spec: a value set "effective starting at" [start]
    covers the entries dated at or after [start]. *)
Definition values_update (start : instant) (v : value)
    (vs : list (instant * value)) : list (instant * value) :=
  (start, v) :: drop_from start vs.


(** The engine's method [Parameter.update(period=..., value=...)], seen as
    a function on the parameter's dated values; it belongs to the external
    microsimulation engine. *)
Definition update_method : Type :=
  string -> value -> list (instant * value) -> result (list (instant * value)).

(** Modelled from the spec: [Parameter.update] as the spec reads it, the
    value holding from the start of the period on. *)
Definition spec_update : update_method :=
  fun period v vs =>
    match period_start period with
    | Some start => Ok (values_update start v vs)
    | None => Raise (ValueError period)
    end.

(** The method call [o.update(period=..., value=...)] on an object of the
    store: the object is overwritten where it lies. *)
Definition update (engine_update : update_method) (o : loc)
    (period : string) (v : value) : PM unit :=
  fun h => match h !! o with
           | Some (PParam vs) =>
               match engine_update period v vs with
               | Ok vs' => (Ok tt, <[o := PParam vs']> h)
               | Raise e => (Raise e, h)
               end
           | _ => (Raise (AttributeError "update"), h)
           end.

(** [lower_pa], lines 84-88. *)
Definition lower_pa (engine_update : update_method) (parameters : loc)
  : PM loc :=
  let* tax := getattr parameters "tax" in
  let* income_tax := getattr tax "income_tax" in
  let* allowances := getattr income_tax "allowances" in
  let* personal_allowance := getattr allowances "personal_allowance" in
  let* amount := getattr personal_allowance "amount" in
  let* _ := update engine_update amount "2018" (VInt 10000) in
  ret parameters.

(** A reform class: [apply] receives the inherited [modify_parameters]
    method of the engine's [Reform] base class. *)
Record Reform : Type := mkReform {
  class_name : string;
  apply : ((loc -> PM loc) -> PM unit) -> PM unit
}.

(** [lower_personal_tax_allowance], lines 90-92. *)
Definition lower_personal_tax_allowance (engine_update : update_method)
  : Reform :=
  {| class_name := "lower_personal_tax_allowance";
     apply := fun modify_parameters =>
                modify_parameters (lower_pa engine_update) |}.

(** Following a chain of attributes from an object. *)
Fixpoint resolve (h : pheap) (o : loc) (path : list string) : option loc :=
  match path with
  | [] => Some o
  | attr :: path' =>
      match h !! o with
      | Some (PNode children) =>
          match children !! attr with
          | Some c => resolve h c path'
          | None => None
          end
      | _ => None
      end
  end.

Definition amount_path : list string :=
  ["tax"; "income_tax"; "allowances"; "personal_allowance"; "amount"].

(** ** The parameter specification object *)

(** Modelled from the spec: the external [Specifications] object is a
    named-field configuration: the constructor's keyword arguments plus a
    mapping of model parameters that starts from the library's defaults. *)
Record Spec : Type := mkSpec {
  baseline : bool;
  num_workers : Z;
  baseline_dir : string;
  output_base : string;
  params : gmap string value
}.

(** Modelled from the spec: [update_specifications] is a plain merge of
    the revision into the parameters; the revision's entries win. *)
Definition update_specifications (p : Spec) (revision : gmap string value)
  : Spec :=
  {| baseline := baseline p;
     num_workers := num_workers p;
     baseline_dir := baseline_dir p;
     output_base := output_base p;
     params := revision ∪ params p |}.

(** ** Paths *)

Fixpoint ends_with_sep (s : string) : bool :=
  match s with
  | EmptyString => false
  | String c EmptyString => Ascii.eqb c "/"
  | String _ s' => ends_with_sep s'
  end.

(** One step of POSIX [os.path.join]. *)
Definition join_step (path b : string) : string :=
  if String.prefix "/" b then b
  else if String.eqb path "" || ends_with_sep path then String.append path b
  else String.append path (String.append "/" b).

Definition os_path_join (a : string) (p : list string) : string :=
  fold_left join_step p a.

(** ** The world of the driver *)

Definition Table := list (string * list value).

(** A file left on disk by the runner, the plotting utility or the
    driver. *)
Inductive file : Type :=
  | FPickle (obj : gmap string value)
  | FCsv (text : string)
  | FOther (tag : string).

Abbreviation FS := (gmap string file).

(** The keyword arguments of [ot.macro_table]. *)
Record macro_args : Type := mkMacroArgs {
  base_tpi : gmap string value;
  base_params : gmap string value;
  reform_tpi : gmap string value;
  reform_params : gmap string value;
  var_list : list string;
  output_type : string;
  num_years : Z;
  start_year : value
}.

Inductive pyarg : Type :=
  | AStr (s : string)
  | AInt (z : Z)
  | ASeconds (z : Z)
  | ATable (t : Table).

(** What the driver asks of the outside world, in order. *)
Inductive event : Type :=
  | EClientNew
  | EClientClose
  | EPrint (args : list pyarg)
  | ECalibration (p : Spec) (iit_reform : option Reform)
      (estimate_tax_functions : bool)
  | ERunner (p : Spec) (time_path : bool)
  | EMacroTable (a : macro_args)
  | EPlotAll (base_dir reform_dir plots_dir : string)
  | EParseArgs (positionals : list string) (argv : list string).

Record World : Type := mkWorld {
  trace : list event;
  fs : FS;
  clock : list Z
}.

(** A calibration object; [get_dict] is its result mapping. *)
Record CalibrationObj : Type := mkCalibration {
  get_dict : gmap string value
}.

(** The external collaborators and the machine the script runs on. *)
Record Env : Type := mkEnv {
  cpu_count : Z;
  CUR_DIR : string;
  Client : result unit;
  default_parameters : gmap string value;
  json_load : string -> result (gmap string value);
  Calibration : Spec -> option Reform -> bool -> result CalibrationObj;
  runner : Spec -> bool -> M FS unit;
  safe_read_pickle : string -> FS -> result (gmap string value);
  macro_table : macro_args -> result Table;
  plot_all : string -> string -> string -> M FS unit;
  to_csv : Table -> string;
  parse_args : list string -> list string -> result (gmap string string);
  import_attr : string -> string -> result Reform;
  Parameter_update : update_method
}.

Definition emit (e : event) : M World unit :=
  fun w => (Ok tt, {| trace := trace w ++ [e]; fs := fs w; clock := clock w |}).

Definition print (args : list pyarg) : M World unit := emit (EPrint args).

(** [time.time()]: the next reading of the clock (0 once the recorded
    readings are used up). *)
Definition time_time : M World Z :=
  fun w => (Ok (hd 0 (clock w)),
            {| trace := trace w; fs := fs w; clock := tl (clock w) |}).

Definition with_fs {A} (m : M FS A) : M World A :=
  fun w => let '(r, fs') := m (fs w) in
           (r, {| trace := trace w; fs := fs'; clock := clock w |}).

Definition read_fs {A} (f : FS -> result A) : M World A :=
  fun w => (f (fs w), w).

(** Subscription [d[k]] on a mapping. *)
Definition getitem {V} (d : gmap string V) (k : string) : result V :=
  match d !! k with
  | Some v => Ok v
  | None => Raise (KeyError k)
  end.

(** Attribute access [obj.attr] on an unpickled object. *)
Definition getattr_obj (obj : gmap string value) (attr : string)
  : result value :=
  match obj !! attr with
  | Some v => Ok v
  | None => Raise (AttributeError attr)
  end.

(** ** The driver *)

(** Line 14. *)
Definition START_YEAR : Z := 2018.

(** The constructor call [Specifications(baseline=..., num_workers=...,
    baseline_dir=..., output_base=...)]. *)
Definition Specifications (E : Env) (baseline : bool) (num_workers : Z)
    (baseline_dir output_base : string) : Spec :=
  {| baseline := baseline;
     num_workers := num_workers;
     baseline_dir := baseline_dir;
     output_base := output_base;
     params := default_parameters E |}.

(** The literal mapping of lines 53-59, repeated on lines 115-121. *)
Definition overrides : gmap string value :=
  list_to_map
    [ ("tax_func_type", VStr "DEP");
      ("age_specific", VBool false);
      ("start_year", VInt START_YEAR);
      ("alpha_T", VList [VFloat 5 (-3)]);
      ("alpha_G", VList [VFloat 5 (-3)]) ].

(** The mapping built on lines 65-71 from [d], and again on lines
    130-136 from [d2]: five subscriptions, evaluated in order. *)
Definition updated_params {S} (d : gmap string value)
  : M S (gmap string value) :=
  let* etr_params := lift (getitem d "etr_params") in
  let* mtrx_params := lift (getitem d "mtrx_params") in
  let* mtry_params := lift (getitem d "mtry_params") in
  let* mean_income_data := lift (getitem d "mean_income_data") in
  let* frac_tax_payroll := lift (getitem d "frac_tax_payroll") in
  ret (list_to_map
         [ ("etr_params", etr_params);
           ("mtrx_params", mtrx_params);
           ("mtry_params", mtry_params);
           ("mean_income_data", mean_income_data);
           ("frac_tax_payroll", frac_tax_payroll) ]).

(** The path of the defaults file, lines 45-47 and 107-109. *)
Definition defaults_path (E : Env) : string :=
  os_path_join (CUR_DIR E) [".."; "oguk"; "oguk_default_parameters.json"].

(** Lines 35-76: the baseline run. *)
Definition baseline_run (E : Env) (num_workers : Z) (base_dir : string)
  : M World unit :=
  let p := Specifications E true num_workers base_dir base_dir in
  let* defaults := lift (json_load E (defaults_path E)) in
  let p := update_specifications p defaults in
  let p := update_specifications p overrides in
  let* _ := emit (ECalibration p None true) in
  let* c := lift (Calibration E p None true) in
  let d := get_dict c in
  let* updated := updated_params d in
  let p := update_specifications p updated in
  let* start_time := time_time in
  let* _ := emit (ERunner p true) in
  let* _ := with_fs (runner E p true) in
  let* now := time_time in
  print [AStr "run time = "; ASeconds (now - start_time)].

(** Line 94. *)
Definition reform (E : Env) : Reform :=
  lower_personal_tax_allowance (Parameter_update E).

(** Lines 97-141: the reform run. *)
Definition reform_run (E : Env) (num_workers : Z)
    (base_dir reform_dir : string) : M World unit :=
  let p2 := Specifications E false num_workers base_dir reform_dir in
  let* defaults := lift (json_load E (defaults_path E)) in
  let p2 := update_specifications p2 defaults in
  let p2 := update_specifications p2 overrides in
  let* _ := emit (ECalibration p2 (Some (reform E)) true) in
  let* c2 := lift (Calibration E p2 (Some (reform E)) true) in
  let d2 := get_dict c2 in
  let* updated2 := updated_params d2 in
  let p2 := update_specifications p2 updated2 in
  let* start_time := time_time in
  let* _ := emit (ERunner p2 true) in
  let* _ := with_fs (runner E p2 true) in
  let* now := time_time in
  print [AStr "run time = "; ASeconds (now - start_time)].

(** Line 174: the name of the output file. *)
Definition csv_name : string := "oguk_example_output.csv".

(** [ans.to_csv(path)]. *)
Definition write_csv (E : Env) (ans : Table) (path : string) : M FS unit :=
  fun fs => (Ok tt, <[path := FCsv (to_csv E ans)]> fs).

(** Lines 148-174: loading the results and reporting. *)
Definition report (E : Env) (base_dir reform_dir : string) : M World unit :=
  let* base_tpi :=
    read_fs (safe_read_pickle E (os_path_join base_dir ["TPI"; "TPI_vars.pkl"])) in
  let* base_params :=
    read_fs (safe_read_pickle E (os_path_join base_dir ["model_params.pkl"])) in
  let* reform_tpi :=
    read_fs (safe_read_pickle E (os_path_join reform_dir ["TPI"; "TPI_vars.pkl"])) in
  let* reform_params :=
    read_fs (safe_read_pickle E (os_path_join reform_dir ["model_params.pkl"])) in
  let* start_year := lift (getattr_obj base_params "start_year") in
  let args :=
    {| base_tpi := base_tpi;
       base_params := base_params;
       reform_tpi := reform_tpi;
       reform_params := reform_params;
       var_list := ["Y"; "C"; "K"; "L"; "r"; "w"];
       output_type := "pct_diff";
       num_years := 10;
       start_year := start_year |} in
  let* _ := emit (EMacroTable args) in
  let* ans := lift (macro_table E args) in
  let plots_dir := os_path_join (CUR_DIR E) ["OG-UK_example_plots"] in
  let* _ := emit (EPlotAll base_dir reform_dir plots_dir) in
  let* _ := with_fs (plot_all E base_dir reform_dir plots_dir) in
  let* _ := print [AStr "Percentage changes in aggregates:"; ATable ans] in
  with_fs (write_csv E ans csv_name).

(** [main], lines 18-175. *)
Definition main (E : Env) : M World unit :=
  let* client := lift (Client E) in
  let* _ := emit EClientNew in
  let num_workers := Z.min (cpu_count E) 7 in
  let* _ := print [AStr "Number of workers = "; AInt num_workers] in
  let base_dir := os_path_join (CUR_DIR E) ["OG-UK-Example"; "OUTPUT_BASELINE"] in
  let reform_dir := os_path_join (CUR_DIR E) ["OG-UK-Example"; "OUTPUT_REFORM"] in
  let* _ := baseline_run E num_workers base_dir in
  let* _ := reform_run E num_workers base_dir reform_dir in
  let* _ := report E base_dir reform_dir in
  emit EClientClose.

(** ** The script entry block *)

(** The names bound at module level by lines 1-18. *)
Definition module_globals : list string :=
  [ "multiprocessing"; "Client"; "json"; "time"; "os"; "Reform";
    "Calibration"; "ot"; "op"; "runner"; "safe_read_pickle";
    "START_YEAR"; "Specifications"; "main" ].

(** The built-in names the file refers to. *)
Definition builtins : list string :=
  [ "min"; "print"; "open"; "getattr"; "__import__"; "__name__"; "__file__" ].

(** Evaluating a bare name: module globals first, then builtins. *)
Definition load_name (globals : list string) (name : string) : M World unit :=
  if bool_decide (name ∈ globals ++ builtins) then ret tt
  else raise (NameError name).

(** Calling [main] with positional arguments: its signature (line 18)
    has no parameters. *)
Definition call_main (E : Env) (args : list Reform) : M World unit :=
  match args with
  | [] => main E
  | _ :: _ =>
      raise (TypeError "main() takes 0 positional arguments but 1 was given")
  end.

Fixpoint split_acc (sep : ascii) (s : string) (cur : string) : list string :=
  match s with
  | EmptyString => [cur]
  | String c s' =>
      if Ascii.eqb c sep then cur :: split_acc sep s' ""
      else split_acc sep s' (String.append cur (String c ""))
  end.

(** [s.split(".")]. *)
Definition split_dot (s : string) : list string := split_acc "." s "".

(** [".".join(l)]. *)
Definition join_dot (l : list string) : string := String.concat "." l.

(** Lines 181-194, run in a namespace [globals]. *)
Definition entry (globals : list string) (E : Env) (argv : list string)
  : M World unit :=
  let* _ := load_name globals "ArgumentParser" in
  let* _ := emit (EParseArgs ["reform"] argv) in
  let* args := lift (parse_args E ["reform"] argv) in
  let* args_reform := lift (getitem args "reform") in
  let reform_path := split_dot args_reform in
  let python_module := join_dot (removelast reform_path) in
  let object_name := List.last reform_path "" in
  let* _ := load_name globals "getattr" in
  let* _ := load_name globals "__import__" in
  let* reform := lift (import_attr E python_module object_name) in
  let* _ := load_name globals "main" in
  call_main E [reform].

(** Running the file as a script. *)
Definition script (E : Env) (argv : list string) : M World unit :=
  entry module_globals E argv.

(** ** Observations on a run *)

(** The events a computation adds to the log when started in [w]. *)
Definition events_of {A} (m : M World A) (w : World) : list event :=
  drop (length (trace w)) (trace (m w).2).

(** How many times the client was released. *)
Fixpoint closes (t : list event) : nat :=
  match t with
  | [] => O
  | EClientClose :: t' => S (closes t')
  | _ :: t' => closes t'
  end.

(** How many clients were created. *)
Fixpoint opens (t : list event) : nat :=
  match t with
  | [] => O
  | EClientNew :: t' => S (opens t')
  | _ :: t' => opens t'
  end.

(** The specifications handed to the runner, in order. *)
Fixpoint runner_specs (t : list event) : list Spec :=
  match t with
  | [] => []
  | ERunner p _ :: t' => p :: runner_specs t'
  | _ :: t' => runner_specs t'
  end.

(** The specifications and reforms handed to the calibration engine. *)
Fixpoint calibrations (t : list event) : list (Spec * option Reform) :=
  match t with
  | [] => []
  | ECalibration p r _ :: t' => (p, r) :: calibrations t'
  | _ :: t' => calibrations t'
  end.

(** The argument records of the calls to [macro_table]. *)
Fixpoint macro_calls (t : list event) : list macro_args :=
  match t with
  | [] => []
  | EMacroTable a :: t' => a :: macro_calls t'
  | _ :: t' => macro_calls t'
  end.

(** The five keys taken from a calibration result. *)
Definition calibration_keys : list string :=
  ["etr_params"; "mtrx_params"; "mtry_params"; "mean_income_data";
   "frac_tax_payroll"].

(** The CSV text on disk, if any. *)
Definition csv_output (w : World) : option file := fs w !! csv_name.

(** A loader that returns fixed fixtures, whatever is on disk. *)
Definition fixed_fixtures (E : Env) : Prop :=
  forall path f f', safe_read_pickle E path f = safe_read_pickle E path f'.

(** ** Stub collaborators, used to run the driver on concrete inputs *)

Module Stub.

Definition calibration_dict (tag : N) : gmap string value :=
  list_to_map
    [ ("etr_params", VData tag);
      ("mtrx_params", VData (tag + 1));
      ("mtry_params", VData (tag + 2));
      ("mean_income_data", VData (tag + 3));
      ("frac_tax_payroll", VFloat 2 (-1));
      ("taxcalc_version", VStr "stub") ].

(** A calibration result that lacks [mtry_params]. *)
Definition incomplete_dict : gmap string value :=
  delete "mtry_params" (calibration_dict 10).

Definition Calibration (p : Spec) (iit_reform : option Reform)
    (estimate_tax_functions : bool) : result CalibrationObj :=
  Ok {| get_dict :=
          calibration_dict (match iit_reform with None => 10 | Some _ => 20 end) |}.

Definition runner (p : Spec) (time_path : bool) : M FS unit :=
  fun fs =>
    (Ok tt,
     <[os_path_join (output_base p) ["model_params.pkl"] := FPickle (params p)]>
       (<[os_path_join (output_base p) ["TPI"; "TPI_vars.pkl"] :=
            FPickle {[ "Y" := VData (if baseline p then 1 else 2) ]}]> fs)).

Definition fixtures : gmap string (gmap string value) :=
  list_to_map
    [ ("/repo/examples/OG-UK-Example/OUTPUT_BASELINE/TPI/TPI_vars.pkl",
        {[ "Y" := VData 1 ]});
      ("/repo/examples/OG-UK-Example/OUTPUT_BASELINE/model_params.pkl",
        {[ "start_year" := VInt 2021 ]});
      ("/repo/examples/OG-UK-Example/OUTPUT_REFORM/TPI/TPI_vars.pkl",
        {[ "Y" := VData 2 ]});
      ("/repo/examples/OG-UK-Example/OUTPUT_REFORM/model_params.pkl",
        {[ "start_year" := VInt 2021 ]}) ].

Definition safe_read_pickle (path : string) (fs : FS)
  : result (gmap string value) :=
  match fixtures !! path with
  | Some obj => Ok obj
  | None => Raise (ExternalError "safe_read_pickle")
  end.

Definition macro_table (a : macro_args) : result Table :=
  Ok (map (fun v => (v, [start_year a; VInt (num_years a)])) (var_list a)).

Definition plot_all (base_dir reform_dir plots_dir : string) : M FS unit :=
  fun fs => (Ok tt, <[plots_dir := FOther "plots"]> fs).

Definition failing_plot_all (base_dir reform_dir plots_dir : string)
  : M FS unit :=
  fun fs => (Raise (ExternalError "plot_all"), fs).

Definition to_csv (t : Table) : string :=
  String.concat "," (map fst t).

Definition parse_args (positionals argv : list string)
  : result (gmap string string) :=
  match positionals, argv with
  | [name], [a] => Ok {[ name := a ]}
  | _, _ => Raise (SystemExit 2)
  end.

Definition import_attr (python_module object_name : string)
  : result Reform :=
  Ok {| class_name := object_name; apply := fun _ => ret tt |}.

Definition json_load (path : string) : result (gmap string value) :=
  if String.eqb path "/repo/examples/../oguk/oguk_default_parameters.json"
  then Ok (list_to_map [ ("start_year", VInt 2021); ("frisch", VFloat 4 (-1)) ])
  else Raise (ExternalError "open").

Definition env : Env :=
  mkEnv 16 "/repo/examples" (Ok tt) {[ "S" := VInt 80 ]}
    json_load Calibration runner safe_read_pickle macro_table plot_all
    to_csv parse_args import_attr spec_update.

(** The same collaborators, except that plot generation fails. *)
Definition env_plot_fails : Env :=
  mkEnv 16 "/repo/examples" (Ok tt) {[ "S" := VInt 80 ]}
    json_load Calibration runner safe_read_pickle macro_table
    failing_plot_all to_csv parse_args import_attr spec_update.

Definition world0 : World :=
  {| trace := []; fs := ∅; clock := [100; 160; 200; 290] |}.

(** The same files at another time, with something already logged. *)
Definition world1 : World :=
  {| trace := [EPrint [AStr "earlier"]]; fs := ∅; clock := [5000; 9000] |}.

(** A small parameter tree: the root (1) leads to the allowance amount
    (6); a second parameter (7) hangs off the root. *)
Definition tree : pheap :=
  list_to_map
    [ (1%positive, PNode (list_to_map [("tax", 2%positive); ("gov", 7%positive)]));
      (2%positive, PNode {[ "income_tax" := 3%positive ]});
      (3%positive, PNode {[ "allowances" := 4%positive ]});
      (4%positive, PNode {[ "personal_allowance" := 5%positive ]});
      (5%positive, PNode {[ "amount" := 6%positive ]});
      (6%positive, PParam [(20190406, VInt 12500); (20170406, VInt 11500);
                           (20160406, VInt 11000)]);
      (7%positive, PParam [(20150101, VInt 1)]) ].

End Stub.

(** ** Summaries of the two runs *)

(** The two runs are the same text up to the baseline flag, the output
    directory and the reform handed to the calibration engine; this is
    that text with the three made arguments. *)
Definition policy_run (E : Env) (flag : bool) (num_workers : Z)
    (base_dir out_dir : string) (iit_reform : option Reform) : M World unit :=
  let p := Specifications E flag num_workers base_dir out_dir in
  let* defaults := lift (json_load E (defaults_path E)) in
  let p := update_specifications p defaults in
  let p := update_specifications p overrides in
  let* _ := emit (ECalibration p iit_reform true) in
  let* c := lift (Calibration E p iit_reform true) in
  let d := get_dict c in
  let* updated := updated_params d in
  let p := update_specifications p updated in
  let* start_time := time_time in
  let* _ := emit (ERunner p true) in
  let* _ := with_fs (runner E p true) in
  let* now := time_time in
  print [AStr "run time = "; ASeconds (now - start_time)].

(** The specification as it stands when the calibration engine is
    called. *)
Definition spec_before_calibration (E : Env) (flag : bool) (num_workers : Z)
    (base_dir out_dir : string) (defaults : gmap string value) : Spec :=
  update_specifications
    (update_specifications
       (Specifications E flag num_workers base_dir out_dir) defaults)
    overrides.

(** What a run can log, with its outcome: it stops at the first failing
    step. *)
Inductive run_events (E : Env) (flag : bool) (n : Z) (bd od : string)
    (r : option Reform) : result unit -> list event -> Prop :=
  | run_no_defaults e :
      json_load E (defaults_path E) = Raise e ->
      run_events E flag n bd od r (Raise e) []
  | run_not_calibrated defaults e :
      json_load E (defaults_path E) = Ok defaults ->
      run_events E flag n bd od r (Raise e)
        [ECalibration (spec_before_calibration E flag n bd od defaults) r true]
  | run_not_solved defaults updated e :
      json_load E (defaults_path E) = Ok defaults ->
      dom updated = list_to_set calibration_keys ->
      run_events E flag n bd od r (Raise e)
        [ECalibration (spec_before_calibration E flag n bd od defaults) r true;
         ERunner (update_specifications
                    (spec_before_calibration E flag n bd od defaults) updated)
                 true]
  | run_done defaults updated seconds :
      json_load E (defaults_path E) = Ok defaults ->
      dom updated = list_to_set calibration_keys ->
      run_events E flag n bd od r (Ok tt)
        [ECalibration (spec_before_calibration E flag n bd od defaults) r true;
         ERunner (update_specifications
                    (spec_before_calibration E flag n bd od defaults) updated)
                 true;
         EPrint [AStr "run time = "; ASeconds seconds]].

(** The events of the reporting step. *)
Definition reporting_event (e : event) : Prop :=
  match e with
  | EMacroTable _ | EPlotAll _ _ _ | EPrint _ => True
  | _ => False
  end.

(** The two output directories, lines 26-27. *)
Definition output_baseline (E : Env) : string :=
  os_path_join (CUR_DIR E) ["OG-UK-Example"; "OUTPUT_BASELINE"].
Definition output_reform (E : Env) : string :=
  os_path_join (CUR_DIR E) ["OG-UK-Example"; "OUTPUT_REFORM"].

(** The worker count, line 21. *)
Definition worker_count (E : Env) : Z := Z.min (cpu_count E) 7.

(** What an invocation of the driver can log, with its outcome. *)
Inductive main_events (E : Env) : result unit -> list event -> Prop :=
  | main_no_client e :
      Client E = Raise e ->
      main_events E (Raise e) []
  | main_baseline_fails e evs1 :
      Client E = Ok tt ->
      run_events E true (worker_count E) (output_baseline E)
        (output_baseline E) None (Raise e) evs1 ->
      main_events E (Raise e)
        (EClientNew :: EPrint [AStr "Number of workers = "; AInt (worker_count E)]
           :: evs1)
  | main_reform_fails e evs1 evs2 :
      Client E = Ok tt ->
      run_events E true (worker_count E) (output_baseline E)
        (output_baseline E) None (Ok tt) evs1 ->
      run_events E false (worker_count E) (output_baseline E)
        (output_reform E) (Some (reform E)) (Raise e) evs2 ->
      main_events E (Raise e)
        (EClientNew :: EPrint [AStr "Number of workers = "; AInt (worker_count E)]
           :: evs1 ++ evs2)
  | main_report_fails e evs1 evs2 evs3 :
      Client E = Ok tt ->
      run_events E true (worker_count E) (output_baseline E)
        (output_baseline E) None (Ok tt) evs1 ->
      run_events E false (worker_count E) (output_baseline E)
        (output_reform E) (Some (reform E)) (Ok tt) evs2 ->
      Forall reporting_event evs3 ->
      main_events E (Raise e)
        (EClientNew :: EPrint [AStr "Number of workers = "; AInt (worker_count E)]
           :: evs1 ++ evs2 ++ evs3)
  | main_done evs1 evs2 evs3 :
      Client E = Ok tt ->
      run_events E true (worker_count E) (output_baseline E)
        (output_baseline E) None (Ok tt) evs1 ->
      run_events E false (worker_count E) (output_baseline E)
        (output_reform E) (Some (reform E)) (Ok tt) evs2 ->
      Forall reporting_event evs3 ->
      main_events E (Ok tt)
        (EClientNew :: EPrint [AStr "Number of workers = "; AInt (worker_count E)]
           :: evs1 ++ evs2 ++ evs3 ++ [EClientClose]).

(** Two specifications that differ at most in the baseline flag, the
    output directory and the five calibrated parameters: the first is the
    baseline's, the second the reform's. *)
Definition differ_only_as_intended (E : Env) (p p2 : Spec) : Prop :=
  baseline p = true /\ baseline p2 = false /\
  output_base p = output_baseline E /\ output_base p2 = output_reform E /\
  baseline_dir p = output_baseline E /\ baseline_dir p2 = output_baseline E /\
  num_workers p = worker_count E /\ num_workers p2 = worker_count E /\
  (forall k, k ∉ calibration_keys -> params p !! k = params p2 !! k) /\
  (forall k, is_Some (overrides !! k) ->
     params p !! k = overrides !! k /\ params p2 !! k = overrides !! k).

(** Two outcomes that leave the same files and end the same way, with
    results related by [R]. *)
Definition same_outcome {A} (R : A -> A -> Prop)
    (x y : result A * World) : Prop :=
  fs x.2 = fs y.2 /\
  match x.1, y.1 with
  | Ok a, Ok b => R a b
  | Raise e1, Raise e2 => e1 = e2
  | _, _ => False
  end.

(** Two computations whose outcome depends on the files only, not on the
    clock nor on what was logged before. *)
Definition files_only {A} (R : A -> A -> Prop) (m1 m2 : M World A) : Prop :=
  forall w1 w2, fs w1 = fs w2 -> same_outcome R (m1 w1) (m2 w2).

(** ** The order of the driver's steps *)

(** What kind of request an event is. *)
Inductive step : Type :=
  | SClientNew
  | SClientClose
  | SPrint
  | SCalibration
  | SRunner
  | SMacroTable
  | SPlotAll
  | SParseArgs.

Definition step_of (e : event) : step :=
  match e with
  | EClientNew => SClientNew
  | EClientClose => SClientClose
  | EPrint _ => SPrint
  | ECalibration _ _ _ => SCalibration
  | ERunner _ _ => SRunner
  | EMacroTable _ => SMacroTable
  | EPlotAll _ _ _ => SPlotAll
  | EParseArgs _ _ => SParseArgs
  end.

(** The requests of [main] in program order, lines 20-175. *)
Definition main_steps : list step :=
  [ SClientNew; SPrint;
    SCalibration; SRunner; SPrint;
    SCalibration; SRunner; SPrint;
    SMacroTable; SPlotAll; SPrint;
    SClientClose ].

(** The world once the client exists and the worker count is printed,
    lines 20-22. *)
Definition after_setup (E : Env) (w : World) : World :=
  {| trace := trace w ++
       [EClientNew; EPrint [AStr "Number of workers = "; AInt (worker_count E)]];
     fs := fs w;
     clock := clock w |}.

(** A string without a dot. *)
Fixpoint no_dot (s : string) : bool :=
  match s with
  | EmptyString => true
  | String c s' => negb (Ascii.eqb c ".") && no_dot s'
  end.

(** The value a key has after the merges of a run, by precedence: the
    calibration result for the five calibrated keys, then the overrides,
    then the JSON defaults, then the library's defaults. *)
Definition merged_value (E : Env) (defaults d : gmap string value)
    (k : string) : option value :=
  if bool_decide (k ∈ calibration_keys) then d !! k
  else match overrides !! k with
       | Some v => Some v
       | None =>
           match defaults !! k with
           | Some v => Some v
           | None => default_parameters E !! k
           end
       end.

(** The argument triples of the calls to [plot_all]. *)
Fixpoint plot_calls (t : list event) : list (string * string * string) :=
  match t with
  | [] => []
  | EPlotAll base_dir reform_dir plots_dir :: t' =>
      (base_dir, reform_dir, plots_dir) :: plot_calls t'
  | _ :: t' => plot_calls t'
  end.

(** An event whose keyword flag, if it has one, is [True]: the runner's
    [time_path], the calibration's [estimate_tax_functions]. *)
Definition full_solve (e : event) : Prop :=
  match e with
  | ERunner _ time_path => time_path = true
  | ECalibration _ _ estimate_tax_functions => estimate_tax_functions = true
  | _ => True
  end.

(** More stub collaborators. *)
Module Fixture.

(** A calibration engine whose result lacks [mtry_params]. *)
Definition Calibration (p : Spec) (iit_reform : option Reform)
    (estimate_tax_functions : bool) : result CalibrationObj :=
  Ok {| get_dict := Stub.incomplete_dict |}.

Definition env_missing_key : Env :=
  mkEnv 16 "/repo/examples" (Ok tt) {[ "S" := VInt 80 ]}
    Stub.json_load Calibration Stub.runner Stub.safe_read_pickle
    Stub.macro_table Stub.plot_all Stub.to_csv Stub.parse_args
    Stub.import_attr spec_update.

(** A tree whose allowance amount is a node, not a parameter. *)
Definition tree_amount_is_node : pheap :=
  <[6%positive := PNode ∅]> Stub.tree.

(** A loader whose artifacts are all empty objects: the baseline
    parameters have no [start_year]. *)
Definition safe_read_pickle (path : string) (fs : FS)
  : result (gmap string value) :=
  Ok ∅.

Definition env_no_start_year : Env :=
  mkEnv 16 "/repo/examples" (Ok tt) {[ "S" := VInt 80 ]}
    Stub.json_load Stub.Calibration Stub.runner safe_read_pickle
    Stub.macro_table Stub.plot_all Stub.to_csv Stub.parse_args
    Stub.import_attr spec_update.

End Fixture.

(** * Properties *)

(** ** The monad *)

Lemma bind_ok_inv {S A B} (m : M S A) (k : A -> M S B) s b s' :
  bind m k s = (Ok b, s') ->
  exists a s1, m s = (Ok a, s1) /\ k a s1 = (Ok b, s').
Proof.
  unfold bind. destruct (m s) as [[a|e] s1]; intros H.
  - exists a, s1. split; [reflexivity | exact H].
  - discriminate H.
Qed.

Lemma bind_ok {S A B} (m : M S A) (k : A -> M S B) s a s1 :
  m s = (Ok a, s1) -> bind m k s = k a s1.
Proof. intros H. unfold bind. now rewrite H. Qed.

Lemma bind_raise {S A B} (m : M S A) (k : A -> M S B) s e s1 :
  m s = (Raise e, s1) -> bind m k s = (Raise e, s1).
Proof. intros H. unfold bind. now rewrite H. Qed.

(** ** The reform transformation *)

Lemma getattr_node h o children attr c :
  h !! o = Some (PNode children) -> children !! attr = Some c ->
  getattr o attr h = (Ok c, h).
Proof. intros Ho Hc. unfold getattr. now rewrite Ho, Hc. Qed.

(** Five attribute accesses and one method call: when the chain of
    attributes leads to a parameter, [lower_pa] applies the engine's
    update to that parameter, with period "2018" and value 10000,
    overwrites the object where it lies and returns its argument. *)
Lemma lower_pa_run upd h parameters a vs :
  resolve h parameters amount_path = Some a ->
  h !! a = Some (PParam vs) ->
  lower_pa upd parameters h =
    match upd "2018" (VInt 10000) vs with
    | Ok vs' => (Ok parameters, <[a := PParam vs']> h)
    | Raise e => (Raise e, h)
    end.
Proof.
  unfold amount_path; cbn [resolve]. intros Hpath Ha.
  destruct (h !! parameters) as [[c0|]|] eqn:H0; try discriminate.
  destruct (c0 !! "tax") as [o1|] eqn:A1; try discriminate.
  destruct (h !! o1) as [[c1|]|] eqn:H1; try discriminate.
  destruct (c1 !! "income_tax") as [o2|] eqn:A2; try discriminate.
  destruct (h !! o2) as [[c2|]|] eqn:H2; try discriminate.
  destruct (c2 !! "allowances") as [o3|] eqn:A3; try discriminate.
  destruct (h !! o3) as [[c3|]|] eqn:H3; try discriminate.
  destruct (c3 !! "personal_allowance") as [o4|] eqn:A4; try discriminate.
  destruct (h !! o4) as [[c4|]|] eqn:H4; try discriminate.
  destruct (c4 !! "amount") as [o5|] eqn:A5; try discriminate.
  injection Hpath as ->.
  unfold lower_pa.
  rewrite (bind_ok _ _ _ _ _ (getattr_node _ _ _ _ _ H0 A1)).
  rewrite (bind_ok _ _ _ _ _ (getattr_node _ _ _ _ _ H1 A2)).
  rewrite (bind_ok _ _ _ _ _ (getattr_node _ _ _ _ _ H2 A3)).
  rewrite (bind_ok _ _ _ _ _ (getattr_node _ _ _ _ _ H3 A4)).
  rewrite (bind_ok _ _ _ _ _ (getattr_node _ _ _ _ _ H4 A5)).
  unfold bind, update, ret. rewrite Ha.
  now destruct (upd "2018" (VInt 10000) vs).
Qed.

(** Without the parameter, the attribute access fails and the store is
    left as it was. *)
Lemma lower_pa_missing upd h parameters :
  resolve h parameters amount_path = None ->
  exists attr, lower_pa upd parameters h = (Raise (AttributeError attr), h).
Proof.
  unfold amount_path, lower_pa, bind, getattr, ret; cbn [resolve]. intros Hpath.
  destruct (h !! parameters) as [[c0|]|]; eauto.
  destruct (c0 !! "tax") as [o1|]; eauto.
  destruct (h !! o1) as [[c1|]|]; eauto.
  destruct (c1 !! "income_tax") as [o2|]; eauto.
  destruct (h !! o2) as [[c2|]|]; eauto.
  destruct (c2 !! "allowances") as [o3|]; eauto.
  destruct (h !! o3) as [[c3|]|]; eauto.
  destruct (c3 !! "personal_allowance") as [o4|]; eauto.
  destruct (h !! o4) as [[c4|]|]; eauto.
  destruct (c4 !! "amount") as [o5|]; eauto.
  discriminate Hpath.
Qed.





(** Overwriting a parameter with a parameter leaves every chain of
    attributes where it led before. *)
Lemma resolve_insert_param h a vs vs' path :
  h !! a = Some (PParam vs) ->
  forall o, resolve (<[a := PParam vs']> h) o path = resolve h o path.
Proof.
  intros Ha. induction path as [|attr path IH]; intros o; [reflexivity|].
  cbn [resolve]. destruct (decide (a = o)) as [->|Hne].
  - now rewrite lookup_insert_eq, Ha.
  - rewrite lookup_insert_ne by exact Hne.
    destruct (h !! o) as [[children|]|]; try reflexivity.
    destruct (children !! attr); [apply IH | reflexivity].
Qed.




(** The outcome on the small tree, in full. *)
Example lower_pa_on_small_tree :
  (lower_pa spec_update 1%positive Stub.tree).1 = Ok 1%positive /\
  (lower_pa spec_update 1%positive Stub.tree).2 !! 6%positive =
    Some (PParam [(20180101, VInt 10000); (20170406, VInt 11500);
                  (20160406, VInt 11000)]) /\
  (lower_pa spec_update 1%positive Stub.tree).2 !! 7%positive =
    Stub.tree !! 7%positive.
Proof. vm_compute. repeat split. Qed.

(** C10.  [lower_pa] works by side effect: it returns the very reference
    it was given, and the updated parameter object is written where the
    old one lay in the store, without allocating anything; the caller's
    tree, reached through the same reference, now shows the updated
    amount, and differs from what it was whenever the update changed the
    dated values. *)
Theorem lower_pa_mutates_in_place (upd : update_method) (h : pheap)
    (parameters a : loc) (vs vs' : list (instant * value)) :
  resolve h parameters amount_path = Some a ->
  h !! a = Some (PParam vs) ->
  upd "2018" (VInt 10000) vs = Ok vs' ->
  exists h',
    lower_pa upd parameters h = (Ok parameters, h') /\
    h' = <[a := PParam vs']> h /\
    dom h' = dom h /\
    resolve h' parameters amount_path = Some a /\
    (vs' <> vs -> h' <> h).
Proof.
  intros Hpath Ha Hupd.
  exists (<[a := PParam vs']> h).
  split; [now rewrite (lower_pa_run upd h parameters a vs), Hupd|].
  split; [reflexivity|]. split; [|split].
  - rewrite dom_insert_L. apply subseteq_union_1_L.
    apply singleton_subseteq_l, elem_of_dom. eauto.
  - now rewrite (resolve_insert_param h a vs).
  - intros Hne Heq. apply Hne.
    assert (Hl : (<[a := PParam vs']> h) !! a = Some (PParam vs))
      by now rewrite Heq.
    rewrite lookup_insert_eq in Hl. now injection Hl.
Qed.

Lemma lower_pa_mutates_in_place_witness :
  exists h',
    lower_pa spec_update 1%positive Stub.tree = (Ok 1%positive, h') /\
    h' = <[6%positive :=
             PParam [(20180101, VInt 10000); (20170406, VInt 11500);
                     (20160406, VInt 11000)]]> Stub.tree /\
    dom h' = dom Stub.tree /\
    resolve h' 1%positive amount_path = Some 6%positive /\
    ([(20180101, VInt 10000); (20170406, VInt 11500); (20160406, VInt 11000)]
       <> [(20190406, VInt 12500); (20170406, VInt 11500);
           (20160406, VInt 11000)] ->
     h' <> Stub.tree).
Proof.
  apply (lower_pa_mutates_in_place spec_update Stub.tree 1%positive 6%positive
           [(20190406, VInt 12500); (20170406, VInt 11500);
            (20160406, VInt 11000)]).
  - vm_compute. reflexivity.
  - vm_compute. reflexivity.
  - vm_compute. reflexivity.
Defined.

(** The caller's tree did change in that example. *)
Example lower_pa_changes_small_tree :
  (lower_pa spec_update 1%positive Stub.tree).2 <> Stub.tree.
Proof.
  intros H.
  assert (H6 : (lower_pa spec_update 1%positive Stub.tree).2 !! 6%positive
               = Stub.tree !! 6%positive) by now rewrite H.
  vm_compute in H6. discriminate H6.
Qed.

(** ** The merge of a calibration result *)

Lemma elem_of_calibration_keys (k : string) :
  k ∈ calibration_keys ->
  k = "etr_params" \/ k = "mtrx_params" \/ k = "mtry_params" \/
  k = "mean_income_data" \/ k = "frac_tax_payroll".
Proof.
  unfold calibration_keys. rewrite !elem_of_cons, elem_of_nil. tauto.
Qed.

Lemma updated_params_ok {S} (d : gmap string value) (s : S) v1 v2 v3 v4 v5 :
  d !! "etr_params" = Some v1 -> d !! "mtrx_params" = Some v2 ->
  d !! "mtry_params" = Some v3 -> d !! "mean_income_data" = Some v4 ->
  d !! "frac_tax_payroll" = Some v5 ->
  updated_params d s =
    (Ok (list_to_map
           [ ("etr_params", v1); ("mtrx_params", v2); ("mtry_params", v3);
             ("mean_income_data", v4); ("frac_tax_payroll", v5) ]), s).
Proof.
  intros H1 H2 H3 H4 H5.
  unfold updated_params, bind, lift, getitem, ret.
  now rewrite H1, H2, H3, H4, H5.
Qed.

Local Ltac missing_key :=
  split; [rewrite !elem_of_cons; tauto | split; [assumption | reflexivity]].

(** A missing key is reported by the first subscription that needs it. *)
Lemma updated_params_missing {S} (d : gmap string value) (s : S) k :
  k ∈ calibration_keys -> d !! k = None ->
  exists k', k' ∈ calibration_keys /\ d !! k' = None /\
             updated_params d s = (Raise (KeyError k'), s).
Proof.
  intros Hk Hnone.
  unfold updated_params, bind, lift, getitem, ret, calibration_keys.
  destruct (d !! "etr_params") eqn:H1;
    [|exists "etr_params"; missing_key].
  destruct (d !! "mtrx_params") eqn:H2;
    [|exists "mtrx_params"; missing_key].
  destruct (d !! "mtry_params") eqn:H3;
    [|exists "mtry_params"; missing_key].
  destruct (d !! "mean_income_data") eqn:H4;
    [|exists "mean_income_data"; missing_key].
  destruct (d !! "frac_tax_payroll") eqn:H5;
    [|exists "frac_tax_payroll"; missing_key].
  apply elem_of_calibration_keys in Hk.
  destruct Hk as [->|[->|[->|[->| ->]]]]; congruence.
Qed.



(** ** The two runs *)

Lemma baseline_run_eq E n bd :
  baseline_run E n bd = policy_run E true n bd bd None.
Proof. reflexivity. Qed.

Lemma reform_run_eq E n bd rd :
  reform_run E n bd rd = policy_run E false n bd rd (Some (reform E)).
Proof. reflexivity. Qed.

Lemma updated_params_cases {S} (d : gmap string value) (s : S) :
  (exists m, updated_params d s = (Ok m, s) /\
             dom m = list_to_set calibration_keys) \/
  (exists k, updated_params d s = (Raise (KeyError k), s)).
Proof.
  unfold updated_params, bind, lift, getitem, ret.
  destruct (d !! "etr_params"); [|right; eauto].
  destruct (d !! "mtrx_params"); [|right; eauto].
  destruct (d !! "mtry_params"); [|right; eauto].
  destruct (d !! "mean_income_data"); [|right; eauto].
  destruct (d !! "frac_tax_payroll"); [|right; eauto].
  left. eexists. split; [reflexivity|]. now rewrite dom_list_to_map_L.
Qed.

Local Ltac run_monad :=
  cbv beta iota delta [bind lift emit print time_time with_fs read_fs ret
                       raise];
  cbn [fst snd trace fs clock].

Local Ltac log_shape :=
  cbn [fst snd trace]; rewrite <- ?app_assoc; cbn [app];
  try reflexivity; symmetry; apply app_nil_r.

(** A run logs what [run_events] says, after what was logged before. *)
Lemma policy_run_events E flag n bd od r w :
  exists evs,
    trace (policy_run E flag n bd od r w).2 = trace w ++ evs /\
    run_events E flag n bd od r (policy_run E flag n bd od r w).1 evs.
Proof.
  unfold policy_run. run_monad.
  destruct (json_load E (defaults_path E)) as [defaults|e] eqn:Hj; run_monad.
  2: { exists []. split; [log_shape | now constructor]. }
  fold (spec_before_calibration E flag n bd od defaults).
  destruct (Calibration E _ r true) as [c|e] eqn:Hc; run_monad.
  2: { eexists. split; [log_shape | now econstructor]. }
  match goal with |- context [updated_params ?d ?s] =>
    destruct (updated_params_cases d s) as [(m & -> & Hdom)|(k & ->)] end;
    run_monad.
  2: { eexists. split; [log_shape | now econstructor]. }
  match goal with |- context [runner E ?p true ?f] =>
    destruct (runner E p true f) as [[[]|e] f'] eqn:Hr end; run_monad.
  - eexists. split; [log_shape | now econstructor].
  - eexists. split; [log_shape | now econstructor].
Qed.

(** When the calibration result lacks one of the five keys, the run stops
    with [KeyError] right after the calibration call: nothing reaches the
    runner. *)
Lemma policy_run_missing_key E flag n bd od r w defaults c k :
  json_load E (defaults_path E) = Ok defaults ->
  Calibration E (spec_before_calibration E flag n bd od defaults) r true = Ok c ->
  k ∈ calibration_keys -> get_dict c !! k = None ->
  exists k',
    k' ∈ calibration_keys /\ get_dict c !! k' = None /\
    (policy_run E flag n bd od r w).1 = Raise (KeyError k') /\
    trace (policy_run E flag n bd od r w).2 =
      trace w ++ [ECalibration (spec_before_calibration E flag n bd od defaults)
                    r true].
Proof.
  intros Hj Hc Hk Hnone.
  unfold policy_run. run_monad. rewrite Hj. run_monad.
  fold (spec_before_calibration E flag n bd od defaults).
  rewrite Hc. run_monad.
  match goal with |- context [updated_params ?d ?s] =>
    destruct (updated_params_missing d s k Hk Hnone) as (k' & Hk' & Hn' & ->) end.
  exists k'. repeat split; assumption.
Qed.

(** ** The reporting step and the whole driver *)

Lemma report_events E bd rd w :
  exists evs,
    trace (report E bd rd w).2 = trace w ++ evs /\
    Forall reporting_event evs.
Proof.
  unfold report, write_csv. run_monad.
  destruct (safe_read_pickle E (os_path_join bd ["TPI"; "TPI_vars.pkl"]) (fs w))
    as [bt|e]; run_monad.
  2: { exists []. split; [log_shape | constructor]. }
  destruct (safe_read_pickle E (os_path_join bd ["model_params.pkl"]) (fs w))
    as [bp|e]; run_monad.
  2: { exists []. split; [log_shape | constructor]. }
  destruct (safe_read_pickle E (os_path_join rd ["TPI"; "TPI_vars.pkl"]) (fs w))
    as [rt|e]; run_monad.
  2: { exists []. split; [log_shape | constructor]. }
  destruct (safe_read_pickle E (os_path_join rd ["model_params.pkl"]) (fs w))
    as [rp|e]; run_monad.
  2: { exists []. split; [log_shape | constructor]. }
  destruct (getattr_obj bp "start_year") as [sy|e]; run_monad.
  2: { exists []. split; [log_shape | constructor]. }
  match goal with |- context [macro_table E ?a] =>
    destruct (macro_table E a) as [ans|e] end; run_monad.
  2: { eexists. split; [log_shape | repeat constructor]. }
  match goal with |- context [plot_all E ?a ?b ?c ?f] =>
    destruct (plot_all E a b c f) as [[[]|e] f'] end; run_monad.
  - eexists. split; [log_shape | repeat constructor].
  - eexists. split; [log_shape | repeat constructor].
Qed.

(** An invocation logs what [main_events] says, after what was logged
    before. *)
Lemma main_run E w :
  exists evs,
    trace (main E w).2 = trace w ++ evs /\
    main_events E (main E w).1 evs.
Proof.
  unfold main. run_monad.
  destruct (Client E) as [[]|e] eqn:Hclient; run_monad.
  2: { exists []. split; [log_shape | now constructor]. }
  fold (worker_count E) (output_baseline E) (output_reform E).
  rewrite baseline_run_eq, reform_run_eq.
  match goal with |- context [policy_run E true ?n ?b ?o None ?w1] =>
    destruct (policy_run_events E true n b o None w1) as (evs1 & Ht1 & Hr1);
    destruct (policy_run E true n b o None w1) as [[[]|e] w2] end;
    cbn [fst snd] in Ht1, Hr1; cbn [trace] in Ht1; run_monad.
  2: { eexists. split; [rewrite Ht1; log_shape | now constructor]. }
  destruct (policy_run_events E false (worker_count E) (output_baseline E)
              (output_reform E) (Some (reform E)) w2) as (evs2 & Ht2 & Hr2).
  destruct (policy_run E false _ _ _ _ w2) as [[[]|e] w3];
    cbn [fst snd] in Ht2, Hr2; run_monad.
  2: { eexists. split; [rewrite Ht2, Ht1; log_shape
                       | now apply main_reform_fails]. }
  destruct (report_events E (output_baseline E) (output_reform E) w3)
    as (evs3 & Ht3 & Hr3).
  destruct (report E _ _ w3) as [[[]|e] w4]; cbn [fst snd] in Ht3; run_monad.
  - eexists. split; [rewrite Ht3, Ht2, Ht1; log_shape | now apply main_done].
  - eexists. split; [rewrite Ht3, Ht2, Ht1; log_shape
                    | now apply main_report_fails].
Qed.

(** ** Reading the log *)

Lemma events_of_trace {A} (m : M World A) w evs :
  trace (m w).2 = trace w ++ evs -> events_of m w = evs.
Proof. intros H. unfold events_of. rewrite H. apply drop_app_length. Qed.

Lemma closes_app t1 t2 : closes (t1 ++ t2) = (closes t1 + closes t2)%nat.
Proof.
  induction t1 as [|e t1 IH]; [reflexivity|].
  destruct e; cbn [app closes]; rewrite IH; reflexivity.
Qed.

Lemma opens_app t1 t2 : opens (t1 ++ t2) = (opens t1 + opens t2)%nat.
Proof.
  induction t1 as [|e t1 IH]; [reflexivity|].
  destruct e; cbn [app opens]; rewrite IH; reflexivity.
Qed.

Lemma runner_specs_app t1 t2 :
  runner_specs (t1 ++ t2) = runner_specs t1 ++ runner_specs t2.
Proof.
  induction t1 as [|e t1 IH]; [reflexivity|].
  destruct e; cbn [app runner_specs]; rewrite IH; reflexivity.
Qed.

Lemma calibrations_app t1 t2 :
  calibrations (t1 ++ t2) = calibrations t1 ++ calibrations t2.
Proof.
  induction t1 as [|e t1 IH]; [reflexivity|].
  destruct e; cbn [app calibrations]; rewrite IH; reflexivity.
Qed.

Lemma macro_calls_app t1 t2 :
  macro_calls (t1 ++ t2) = macro_calls t1 ++ macro_calls t2.
Proof.
  induction t1 as [|e t1 IH]; [reflexivity|].
  destruct e; cbn [app macro_calls]; rewrite IH; reflexivity.
Qed.

(** The reporting step neither touches the client nor starts a run. *)
Lemma reporting_quiet evs :
  Forall reporting_event evs ->
  closes evs = O /\ opens evs = O /\ runner_specs evs = [] /\
  calibrations evs = [].
Proof.
  induction 1 as [|e evs He _ IH]; [repeat split|].
  destruct e; cbn in He; try contradiction; exact IH.
Qed.

(** A run neither creates nor releases a client and asks for no table. *)
Lemma run_events_quiet E flag n bd od r res evs :
  run_events E flag n bd od r res evs ->
  closes evs = O /\ opens evs = O /\ macro_calls evs = [].
Proof. destruct 1; repeat split. Qed.


(** A run hands at most one specification to the runner. *)
Lemma run_events_runner E flag n bd od r res evs :
  run_events E flag n bd od r res evs ->
  runner_specs evs = [] \/
  exists defaults updated,
    json_load E (defaults_path E) = Ok defaults /\
    dom updated = list_to_set calibration_keys /\
    runner_specs evs =
      [update_specifications
         (spec_before_calibration E flag n bd od defaults) updated].
Proof. destruct 1; cbn; try (left; reflexivity); right; eauto. Qed.

(** A run that completes has handed exactly one. *)
Lemma run_events_runner_done E flag n bd od r evs :
  run_events E flag n bd od r (Ok tt) evs ->
  exists defaults updated,
    json_load E (defaults_path E) = Ok defaults /\
    dom updated = list_to_set calibration_keys /\
    runner_specs evs =
      [update_specifications
         (spec_before_calibration E flag n bd od defaults) updated].
Proof. inversion 1; subst; cbn; eauto. Qed.

(** ** Releasing the client *)

(** The client is released exactly when the driver returns normally;
    when any step raises, the call on line 175 is never reached. *)
Lemma main_releases_client_only_on_success E w :
  closes (events_of (main E) w) =
    match (main E w).1 with Ok _ => 1%nat | Raise _ => 0%nat end /\
  opens (events_of (main E) w) =
    match Client E with Ok _ => 1%nat | Raise _ => 0%nat end.
Proof.
  destruct (main_run E w) as (evs & Ht & Hev).
  rewrite (events_of_trace _ _ _ Ht).
  destruct Hev as [e Hc|e evs1 Hc H1|e evs1 evs2 Hc H1 H2
                  |e evs1 evs2 evs3 Hc H1 H2 H3|evs1 evs2 evs3 Hc H1 H2 H3];
    rewrite Hc; [split; reflexivity|..];
    cbn [closes opens]; rewrite ?closes_app, ?opens_app;
    repeat match goal with
      | H : run_events _ _ _ _ _ _ _ _ |- _ =>
          apply run_events_quiet in H; destruct H as (-> & -> & _)
      | H : Forall reporting_event _ |- _ =>
          apply reporting_quiet in H; destruct H as (-> & -> & _)
      end;
    split; reflexivity.
Qed.

(** C1 (the code departs from the claim).  With collaborators whose plot
    generation raises, the driver creates its client, propagates the
    failure, and never releases the client: the release on line 175 is
    reached on the normal path only. *)
Theorem main_leaves_client_open_when_plots_fail :
  (main Stub.env_plot_fails Stub.world0).1 = Raise (ExternalError "plot_all") /\
  opens (events_of (main Stub.env_plot_fails) Stub.world0) = 1%nat /\
  closes (events_of (main Stub.env_plot_fails) Stub.world0) = 0%nat.
Proof. vm_compute. repeat split. Qed.

(** On the normal path the same driver creates one client and releases
    it once. *)
Example main_releases_client_on_normal_exit :
  (main Stub.env Stub.world0).1 = Ok tt /\
  opens (events_of (main Stub.env) Stub.world0) = 1%nat /\
  closes (events_of (main Stub.env) Stub.world0) = 1%nat.
Proof. vm_compute. repeat split. Qed.

(** ** The specifications of the two runs *)

Lemma overrides_not_calibrated k :
  is_Some (overrides !! k) -> k ∉ calibration_keys.
Proof.
  intros [v Hv] Hk. apply elem_of_calibration_keys in Hk.
  destruct Hk as [->|[->|[->|[->| ->]]]]; vm_compute in Hv; discriminate.
Qed.

Lemma not_calibrated_lookup (updated m : gmap string value) k :
  dom updated = list_to_set calibration_keys -> k ∉ calibration_keys ->
  (updated ∪ m) !! k = m !! k.
Proof.
  intros Hdom Hk. apply lookup_union_r, not_elem_of_dom.
  rewrite Hdom, elem_of_list_to_set. exact Hk.
Qed.

Lemma run_specs_differ_only_as_intended E defaults updated updated2 :
  dom updated = list_to_set calibration_keys ->
  dom updated2 = list_to_set calibration_keys ->
  differ_only_as_intended E
    (update_specifications
       (spec_before_calibration E true (worker_count E) (output_baseline E)
          (output_baseline E) defaults) updated)
    (update_specifications
       (spec_before_calibration E false (worker_count E) (output_baseline E)
          (output_reform E) defaults) updated2).
Proof.
  intros Hd Hd2. unfold differ_only_as_intended.
  cbn [update_specifications spec_before_calibration Specifications baseline
       output_base baseline_dir num_workers params].
  repeat (split; [reflexivity|]). split.
  - intros k Hk.
    now rewrite (not_calibrated_lookup updated), (not_calibrated_lookup updated2).
  - intros k Hk. pose proof (overrides_not_calibrated k Hk) as Hnk.
    rewrite (not_calibrated_lookup updated), (not_calibrated_lookup updated2)
      by assumption.
    destruct Hk as [v Hv]. rewrite Hv.
    split; now apply lookup_union_Some_l.
Qed.

(** C2.  When the driver hands two specifications to the runner, the
    first is flagged baseline and writes to the baseline directory, the
    second is flagged reform and writes to the reform directory; both
    name the baseline directory as [baseline_dir], carry the same worker
    count, and agree on every parameter other than the five calibrated
    ones: the JSON defaults and the overrides [tax_func_type],
    [age_specific], [start_year], [alpha_T], [alpha_G] are the same in
    both. *)
Theorem specs_differ_only_as_intended (E : Env) (w : World) (p p2 : Spec) :
  runner_specs (events_of (main E) w) = [p; p2] ->
  differ_only_as_intended E p p2.
Proof.
  destruct (main_run E w) as (evs & Ht & Hev).
  rewrite (events_of_trace _ _ _ Ht). clear Ht. intros Hspecs.
  assert (Hboth : forall evs1 evs2,
    run_events E true (worker_count E) (output_baseline E)
      (output_baseline E) None (Ok tt) evs1 ->
    run_events E false (worker_count E) (output_baseline E)
      (output_reform E) (Some (reform E)) (Ok tt) evs2 \/
    (exists e, run_events E false (worker_count E) (output_baseline E)
      (output_reform E) (Some (reform E)) (Raise e) evs2) ->
    runner_specs evs1 ++ runner_specs evs2 = [p; p2] ->
    differ_only_as_intended E p p2).
  { intros evs1 evs2 H1 H2 Heq.
    apply run_events_runner_done in H1.
    destruct H1 as (defaults & updated & Hj & Hd & H1).
    assert (H2' : runner_specs evs2 = [] \/
      exists defaults2 updated2,
        json_load E (defaults_path E) = Ok defaults2 /\
        dom updated2 = list_to_set calibration_keys /\
        runner_specs evs2 =
          [update_specifications
             (spec_before_calibration E false (worker_count E)
                (output_baseline E) (output_reform E) defaults2) updated2])
      by (destruct H2 as [H2|[e H2]]; exact (run_events_runner _ _ _ _ _ _ _ _ H2)).
    rewrite H1 in Heq.
    destruct H2' as [H2'|(defaults2 & updated2 & Hj2 & Hd2 & H2')];
      rewrite H2' in Heq; [discriminate Heq|].
    injection Heq as <- <-.
    rewrite Hj in Hj2. injection Hj2 as <-.
    now apply run_specs_differ_only_as_intended. }
  destruct Hev as [e Hc|e evs1 Hc H1|e evs1 evs2 Hc H1 H2
                  |e evs1 evs2 evs3 Hc H1 H2 H3|evs1 evs2 evs3 Hc H1 H2 H3];
    cbn [runner_specs] in Hspecs; rewrite ?runner_specs_app in Hspecs.
  - discriminate Hspecs.
  - destruct (run_events_runner _ _ _ _ _ _ _ _ H1)
      as [Hr|(defaults & updated & _ & _ & Hr)];
      rewrite Hr in Hspecs; discriminate Hspecs.
  - apply (Hboth evs1 evs2); eauto.
  - apply reporting_quiet in H3. destruct H3 as (_ & _ & H3 & _).
    rewrite H3, app_nil_r in Hspecs. apply (Hboth evs1 evs2); eauto.
  - apply reporting_quiet in H3. destruct H3 as (_ & _ & H3 & _).
    rewrite H3 in Hspecs. cbn [runner_specs app] in Hspecs.
    rewrite app_nil_r in Hspecs. apply (Hboth evs1 evs2); eauto.
Qed.

Lemma specs_differ_only_as_intended_witness :
  exists p p2,
    runner_specs (events_of (main Stub.env) Stub.world0) = [p; p2] /\
    differ_only_as_intended Stub.env p p2.
Proof.
  eexists _, _. split.
  - vm_compute. reflexivity.
  - apply (specs_differ_only_as_intended Stub.env Stub.world0).
    vm_compute. reflexivity.
Defined.

(** With the stub collaborators: the override of [start_year] wins over
    the JSON default in both specifications, the JSON default [frisch] is
    in both, and the calibrated [etr_params] differ. *)
Example stub_run_specs :
  map (fun p => (baseline p, output_base p, params p !! "start_year",
                 params p !! "frisch", params p !! "etr_params"))
      (runner_specs (events_of (main Stub.env) Stub.world0))
  = [ (true, "/repo/examples/OG-UK-Example/OUTPUT_BASELINE",
       Some (VInt 2018), Some (VFloat 4 (-1)), Some (VData 10));
      (false, "/repo/examples/OG-UK-Example/OUTPUT_REFORM",
       Some (VInt 2018), Some (VFloat 4 (-1)), Some (VData 20)) ].
Proof. vm_compute. reflexivity. Qed.

(** ** The worker count and the reform handed to the calibration engine *)




Example worker_count_on_16_cores :
  map num_workers (runner_specs (events_of (main Stub.env) Stub.world0)) = [7; 7].
Proof. vm_compute. reflexivity. Qed.

(** ** The script entry block *)


Lemma load_name_unbound globals name w :
  name ∉ globals ++ builtins ->
  load_name globals name w = (Raise (NameError name), w).
Proof.
  intros H. unfold load_name. now rewrite (bool_decide_eq_false_2 _ H).
Qed.

Lemma argument_parser_unbound : "ArgumentParser" ∉ module_globals ++ builtins.
Proof.
  apply (bool_decide_eq_false_1 ("ArgumentParser" ∈ module_globals ++ builtins)).
  vm_compute. reflexivity.
Qed.

(** In whatever namespace the entry block runs, it ends in an exception
    and logs at most the parsing of the command line: the body of [main]
    is never entered. *)
Lemma entry_never_enters_main globals E argv w :
  (exists e, (entry globals E argv w).1 = Raise e) /\
  (events_of (entry globals E argv) w = [] \/
   events_of (entry globals E argv) w = [EParseArgs ["reform"] argv]).
Proof.
  unfold events_of, entry, call_main, load_name.
  destruct (bool_decide ("ArgumentParser" ∈ globals ++ builtins)); run_monad.
  2: { split; [eauto|left]. apply drop_all. }
  destruct (parse_args E ["reform"] argv) as [ns|e]; run_monad.
  2: { split; [eauto|right]. apply drop_app_length. }
  destruct (getitem ns "reform") as [s|e]; run_monad.
  2: { split; [eauto|right]. apply drop_app_length. }
  destruct (bool_decide ("getattr" ∈ globals ++ builtins)); run_monad.
  2: { split; [eauto|right]. apply drop_app_length. }
  destruct (bool_decide ("__import__" ∈ globals ++ builtins)); run_monad.
  2: { split; [eauto|right]. apply drop_app_length. }
  match goal with |- context [import_attr E ?m ?o] =>
    destruct (import_attr E m o) as [rf|e] end; run_monad.
  2: { split; [eauto|right]. apply drop_app_length. }
  destruct (bool_decide ("main" ∈ globals ++ builtins)); run_monad.
  2: { split; [eauto|right]. apply drop_app_length. }
  split; [eauto|right]. apply drop_app_length.
Qed.




(** C9.  Run as a script, the file raises [NameError] for
    [ArgumentParser], a name that no import binds, before doing anything
    else: whatever the command line, nothing is logged, so [main] is
    never called and no simulation work starts. *)
Theorem script_raises_name_error (E : Env) (argv : list string) (w : World) :
("ArgumentParser" ∉ module_globals) /\
  script E argv w = (Raise (NameError "ArgumentParser"), w) /\
  events_of (script E argv) w = [].
Proof.
  pose proof argument_parser_unbound as Hunbound.
  split; [|split].
  - intros H. apply Hunbound, elem_of_app. now left.
  - unfold script, entry.
    now rewrite (bind_raise _ _ _ _ _ (load_name_unbound _ _ w Hunbound)).
  - unfold events_of, script, entry.
    rewrite (bind_raise _ _ _ _ _ (load_name_unbound _ _ w Hunbound)).
    apply drop_all.
Qed.

(** ** The reporting step *)

(** A completed invocation went through the two runs and the reporting
    step, and then released the client. *)
Lemma main_ok_inv E w u w' :
  main E w = (Ok u, w') ->
  exists w1 w2 w3 w4,
    trace w1 = trace w ++
      [EClientNew; EPrint [AStr "Number of workers = "; AInt (worker_count E)]] /\
    policy_run E true (worker_count E) (output_baseline E) (output_baseline E)
      None w1 = (Ok tt, w2) /\
    policy_run E false (worker_count E) (output_baseline E) (output_reform E)
      (Some (reform E)) w2 = (Ok tt, w3) /\
    report E (output_baseline E) (output_reform E) w3 = (Ok tt, w4) /\
    trace w' = trace w4 ++ [EClientClose] /\ fs w' = fs w4.
Proof.
  unfold main. intros H.
  apply bind_ok_inv in H as ([] & wa & Ha & H).
  apply bind_ok_inv in H as ([] & wb & Hb & H).
  apply bind_ok_inv in H as ([] & wc & Hc & H).
  apply bind_ok_inv in H as ([] & w2 & H1 & H).
  apply bind_ok_inv in H as ([] & w3 & H2 & H).
  apply bind_ok_inv in H as ([] & w4 & H3 & H).
  exists wc, w2, w3, w4.
  unfold lift in Ha. unfold print, emit in Hb, Hc, H.
  injection Ha as _ <-. injection Hb as <-. injection Hc as <-.
  destruct u. injection H as <-.
  cbn [trace fs]. split; [now rewrite <- app_assoc|].
  repeat split; try assumption; reflexivity.
Qed.

(** What a completed reporting step did: four loads from the files as
    they stand, one table computed from them, the plots, and the table
    written out as CSV. *)
Lemma report_ok E bd rd w u w' :
  report E bd rd w = (Ok u, w') ->
  exists bt bp rt rp sy ans f,
    safe_read_pickle E (os_path_join bd ["TPI"; "TPI_vars.pkl"]) (fs w) = Ok bt /\
    safe_read_pickle E (os_path_join bd ["model_params.pkl"]) (fs w) = Ok bp /\
    safe_read_pickle E (os_path_join rd ["TPI"; "TPI_vars.pkl"]) (fs w) = Ok rt /\
    safe_read_pickle E (os_path_join rd ["model_params.pkl"]) (fs w) = Ok rp /\
    bp !! "start_year" = Some sy /\
    macro_table E
      {| base_tpi := bt; base_params := bp; reform_tpi := rt;
         reform_params := rp; var_list := ["Y"; "C"; "K"; "L"; "r"; "w"];
         output_type := "pct_diff"; num_years := 10; start_year := sy |}
      = Ok ans /\
    trace w' = trace w ++
      [EMacroTable
         {| base_tpi := bt; base_params := bp; reform_tpi := rt;
            reform_params := rp; var_list := ["Y"; "C"; "K"; "L"; "r"; "w"];
            output_type := "pct_diff"; num_years := 10; start_year := sy |};
       EPlotAll bd rd (os_path_join (CUR_DIR E) ["OG-UK_example_plots"]);
       EPrint [AStr "Percentage changes in aggregates:"; ATable ans]] /\
    fs w' = <[csv_name := FCsv (to_csv E ans)]> f.
Proof.
  unfold report, write_csv, getattr_obj. run_monad.
  destruct (safe_read_pickle E (os_path_join bd ["TPI"; "TPI_vars.pkl"]) (fs w))
    as [bt|e]; run_monad; [|discriminate].
  destruct (safe_read_pickle E (os_path_join bd ["model_params.pkl"]) (fs w))
    as [bp|e]; run_monad; [|discriminate].
  destruct (safe_read_pickle E (os_path_join rd ["TPI"; "TPI_vars.pkl"]) (fs w))
    as [rt|e]; run_monad; [|discriminate].
  destruct (safe_read_pickle E (os_path_join rd ["model_params.pkl"]) (fs w))
    as [rp|e]; run_monad; [|discriminate].
  destruct (bp !! "start_year") as [sy|] eqn:Hsy; run_monad; [|discriminate].
  match goal with |- context [macro_table E ?a] =>
    destruct (macro_table E a) as [ans|e] eqn:Hans end; run_monad;
    [|discriminate].
  match goal with |- context [plot_all E ?a ?b ?c ?f] =>
    destruct (plot_all E a b c f) as [[[]|e] f'] end; run_monad;
    [|discriminate].
  intros H. injection H as _ <-.
  exists bt, bp, rt, rp, sy, ans, f'. cbn [trace fs].
  rewrite <- !app_assoc. repeat split; try assumption; reflexivity.
Qed.

(** C6.  In a completed invocation the reporting step calls
    [macro_table] once, on the four loaded artifacts, with the variable
    list Y, C, K, L, r, w, output type [pct_diff], a horizon of 10 years,
    and the start year read from the loaded baseline model parameters;
    the resulting table is what the file [oguk_example_output.csv]
    holds at the end. *)
Theorem report_table_arguments_and_csv (E : Env) (w w' : World) (u : unit) :
  main E w = (Ok u, w') ->
  exists f bt bp rt rp sy ans,
    safe_read_pickle E
      (os_path_join (output_baseline E) ["TPI"; "TPI_vars.pkl"]) f = Ok bt /\
    safe_read_pickle E
      (os_path_join (output_baseline E) ["model_params.pkl"]) f = Ok bp /\
    safe_read_pickle E
      (os_path_join (output_reform E) ["TPI"; "TPI_vars.pkl"]) f = Ok rt /\
    safe_read_pickle E
      (os_path_join (output_reform E) ["model_params.pkl"]) f = Ok rp /\
    bp !! "start_year" = Some sy /\
    macro_calls (events_of (main E) w) =
      [ {| base_tpi := bt; base_params := bp; reform_tpi := rt;
           reform_params := rp; var_list := ["Y"; "C"; "K"; "L"; "r"; "w"];
           output_type := "pct_diff"; num_years := 10; start_year := sy |} ] /\
    macro_table E
      {| base_tpi := bt; base_params := bp; reform_tpi := rt;
         reform_params := rp; var_list := ["Y"; "C"; "K"; "L"; "r"; "w"];
         output_type := "pct_diff"; num_years := 10; start_year := sy |}
      = Ok ans /\
    fs w' !! "oguk_example_output.csv" = Some (FCsv (to_csv E ans)).
Proof.
  intros Hmain.
  destruct (main_ok_inv E w u w' Hmain)
    as (w1 & w2 & w3 & w4 & Ht1 & Hrun1 & Hrun2 & Hrep & Ht' & Hfs').
  destruct (report_ok _ _ _ _ _ _ Hrep)
    as (bt & bp & rt & rp & sy & ans & f & Hbt & Hbp & Hrt & Hrp & Hsy & Hans
        & Ht4 & Hfs4).
  exists (fs w3), bt, bp, rt, rp, sy, ans.
  repeat (split; [assumption|]). split; [|split; [assumption|]].
  - destruct (policy_run_events E true (worker_count E) (output_baseline E)
                (output_baseline E) None w1) as (evs1 & Ht2 & He1).
    destruct (policy_run_events E false (worker_count E) (output_baseline E)
                (output_reform E) (Some (reform E)) w2) as (evs2 & Ht3 & He2).
    rewrite Hrun1 in Ht2, He1. rewrite Hrun2 in Ht3, He2.
    cbn [fst snd] in Ht2, He1, Ht3, He2.
    apply run_events_quiet in He1 as (_ & _ & Hm1).
    apply run_events_quiet in He2 as (_ & _ & Hm2).
    erewrite events_of_trace
      by (rewrite Hmain; cbn [snd];
          rewrite Ht', Ht4, Ht3, Ht2, Ht1, <- !app_assoc; reflexivity).
    rewrite !macro_calls_app, Hm1, Hm2. reflexivity.
  - rewrite Hfs', Hfs4. apply lookup_insert_eq.
Qed.

Lemma report_table_arguments_and_csv_witness :
  main Stub.env Stub.world0 = (Ok tt, (main Stub.env Stub.world0).2) /\
  exists f bt bp rt rp sy ans,
    safe_read_pickle Stub.env
      (os_path_join (output_baseline Stub.env) ["TPI"; "TPI_vars.pkl"]) f = Ok bt /\
    safe_read_pickle Stub.env
      (os_path_join (output_baseline Stub.env) ["model_params.pkl"]) f = Ok bp /\
    safe_read_pickle Stub.env
      (os_path_join (output_reform Stub.env) ["TPI"; "TPI_vars.pkl"]) f = Ok rt /\
    safe_read_pickle Stub.env
      (os_path_join (output_reform Stub.env) ["model_params.pkl"]) f = Ok rp /\
    bp !! "start_year" = Some sy /\
    macro_calls (events_of (main Stub.env) Stub.world0) =
      [ {| base_tpi := bt; base_params := bp; reform_tpi := rt;
           reform_params := rp; var_list := ["Y"; "C"; "K"; "L"; "r"; "w"];
           output_type := "pct_diff"; num_years := 10; start_year := sy |} ] /\
    macro_table Stub.env
      {| base_tpi := bt; base_params := bp; reform_tpi := rt;
         reform_params := rp; var_list := ["Y"; "C"; "K"; "L"; "r"; "w"];
         output_type := "pct_diff"; num_years := 10; start_year := sy |}
      = Ok ans /\
    fs (main Stub.env Stub.world0).2 !! "oguk_example_output.csv"
      = Some (FCsv (to_csv Stub.env ans)).
Proof.
  assert (H : main Stub.env Stub.world0 = (Ok tt, (main Stub.env Stub.world0).2))
    by (vm_compute; reflexivity).
  split; [exact H|].
  exact (report_table_arguments_and_csv Stub.env Stub.world0 _ tt H).
Defined.

(** The table is anchored at the start year found in the loaded baseline
    parameters (2021 in the fixtures), not at [START_YEAR]. *)
Example report_anchor_is_loaded_start_year :
  map start_year (macro_calls (events_of (main Stub.env) Stub.world0))
    = [VInt 2021] /\
  START_YEAR = 2018.
Proof. vm_compute. split; reflexivity. Qed.

(** ** Determinism of the output *)

Section Files_only.

Context {A B : Type}.

Lemma files_only_bind (R : A -> A -> Prop) (R' : B -> B -> Prop)
    (m1 m2 : M World A) (k1 k2 : A -> M World B) :
  files_only R m1 m2 ->
  (forall a b, R a b -> files_only R' (k1 a) (k2 b)) ->
  files_only R' (bind m1 k1) (bind m2 k2).
Proof.
  intros Hm Hk w1 w2 Hfs. unfold bind.
  specialize (Hm w1 w2 Hfs). unfold same_outcome in Hm.
  destruct (m1 w1) as [[a|e1] w1'], (m2 w2) as [[b|e2] w2'];
    cbn [fst snd] in Hm; destruct Hm as [Hfs' Hr]; try contradiction.
  - now apply Hk.
  - split; assumption.
Qed.

Lemma files_only_lift (r : result A) : files_only eq (lift r) (lift r).
Proof. intros w1 w2 Hfs. split; [exact Hfs|]. now destruct r. Qed.

Lemma files_only_ret (a : A) : files_only eq (ret a) (ret a).
Proof. intros w1 w2 Hfs. now split. Qed.

Lemma files_only_with_fs (m : M FS A) : files_only eq (with_fs m) (with_fs m).
Proof.
  intros w1 w2 Hfs. unfold with_fs. rewrite Hfs.
  destruct (m (fs w2)) as [[a|e] f]; now split.
Qed.

Lemma files_only_read_fs (f : FS -> result A) :
  files_only eq (read_fs f) (read_fs f).
Proof.
  intros w1 w2 Hfs. unfold read_fs. rewrite Hfs.
  split; [exact Hfs|]. cbn. now destruct (f (fs w2)).
Qed.

End Files_only.

Lemma files_only_emit e1 e2 : files_only eq (emit e1) (emit e2).
Proof. intros w1 w2 Hfs. now split. Qed.

(** Two readings of the clock may differ. *)
Lemma files_only_time : files_only (fun _ _ => True) time_time time_time.
Proof. intros w1 w2 Hfs. now split. Qed.

Lemma files_only_updated_params d :
  files_only eq (@updated_params World d) (updated_params d).
Proof.
  unfold updated_params.
  repeat (eapply files_only_bind; [apply files_only_lift | intros ? ? <-]).
  apply files_only_ret.
Qed.

Local Ltac files_step :=
  first
    [ eapply files_only_bind; [apply files_only_lift | intros ? ? <-]
    | eapply files_only_bind; [apply files_only_emit | intros ? ? _]
    | eapply files_only_bind; [apply files_only_updated_params | intros ? ? <-]
    | eapply files_only_bind; [apply files_only_time | intros ? ? _]
    | eapply files_only_bind; [apply files_only_with_fs | intros ? ? _]
    | eapply files_only_bind; [apply files_only_read_fs | intros ? ? <-] ].

(** The elapsed time a run prints depends on the clock; its outcome and
    the files it leaves do not. *)
Lemma files_only_policy_run E flag n bd od r :
  files_only eq (policy_run E flag n bd od r) (policy_run E flag n bd od r).
Proof.
  unfold policy_run, print. repeat files_step. apply files_only_emit.
Qed.

Lemma files_only_report E bd rd :
  files_only eq (report E bd rd) (report E bd rd).
Proof.
  unfold report, print. repeat files_step. apply files_only_with_fs.
Qed.

Lemma files_only_main E : files_only eq (main E) (main E).
Proof.
  unfold main, print. rewrite baseline_run_eq, reform_run_eq.
  do 3 files_step.
  eapply files_only_bind; [apply files_only_policy_run | intros ? ? _].
  eapply files_only_bind; [apply files_only_policy_run | intros ? ? _].
  eapply files_only_bind; [apply files_only_report | intros ? ? _].
  apply files_only_emit.
Qed.

(** C8.  The driver's outcome and the files it leaves, the CSV file among
    them, are a function of the collaborators and of the files it starts
    from: the clock and the earlier log do not matter.  With a loader
    that returns fixed fixtures, any two completed invocations, such as a
    run and its re-run, leave the same CSV text, which is the rendering
    of the table computed from those fixtures. *)
Theorem csv_output_is_deterministic (E : Env) (w1 w2 : World) :
  (fs w1 = fs w2 ->
   (main E w1).1 = (main E w2).1 /\
   fs (main E w1).2 = fs (main E w2).2 /\
   csv_output (main E w1).2 = csv_output (main E w2).2) /\
  (fixed_fixtures E ->
   forall u1 u2 w1' w2',
     main E w1 = (Ok u1, w1') -> main E w2 = (Ok u2, w2') ->
     csv_output w1' = csv_output w2' /\
     exists ans, csv_output w1' = Some (FCsv (to_csv E ans))).
Proof.
  split.
  - intros Hfs. destruct (files_only_main E w1 w2 Hfs) as [Hfs' Hres].
    unfold csv_output. rewrite Hfs'. repeat split.
    destruct (main E w1).1, (main E w2).1; try contradiction; congruence.
  - intros Hfixed u1 u2 w1' w2' H1 H2.
    destruct (main_ok_inv E w1 u1 w1' H1)
      as (wa & wb & wc & wd & _ & _ & _ & Hrep1 & _ & Hfs1).
    destruct (main_ok_inv E w2 u2 w2' H2)
      as (wa' & wb' & wc' & wd' & _ & _ & _ & Hrep2 & _ & Hfs2).
    destruct (report_ok _ _ _ _ _ _ Hrep1)
      as (bt & bp & rt & rp & sy & ans & f & Hbt & Hbp & Hrt & Hrp & Hsy
          & Hans & _ & Hcsv1).
    destruct (report_ok _ _ _ _ _ _ Hrep2)
      as (bt' & bp' & rt' & rp' & sy' & ans' & f' & Hbt' & Hbp' & Hrt' & Hrp'
          & Hsy' & Hans' & _ & Hcsv2).
    rewrite (Hfixed _ (fs wc) (fs wc')) in Hbt.
    rewrite (Hfixed _ (fs wc) (fs wc')) in Hbp.
    rewrite (Hfixed _ (fs wc) (fs wc')) in Hrt.
    rewrite (Hfixed _ (fs wc) (fs wc')) in Hrp.
    rewrite Hbt in Hbt'. injection Hbt' as <-.
    rewrite Hbp in Hbp'. injection Hbp' as <-.
    rewrite Hrt in Hrt'. injection Hrt' as <-.
    rewrite Hrp in Hrp'. injection Hrp' as <-.
    rewrite Hsy in Hsy'. injection Hsy' as <-.
    rewrite Hans in Hans'. injection Hans' as <-.
    unfold csv_output. rewrite Hfs1, Hfs2, Hcsv1, Hcsv2.
    rewrite !lookup_insert_eq. split; [reflexivity | now exists ans].
Qed.

Lemma csv_output_is_deterministic_witness :
  ((main Stub.env Stub.world0).1 = (main Stub.env Stub.world1).1 /\
   fs (main Stub.env Stub.world0).2 = fs (main Stub.env Stub.world1).2 /\
   csv_output (main Stub.env Stub.world0).2
     = csv_output (main Stub.env Stub.world1).2) /\
  (csv_output (main Stub.env Stub.world0).2
     = csv_output (main Stub.env (main Stub.env Stub.world0).2).2 /\
   exists ans,
     csv_output (main Stub.env Stub.world0).2
       = Some (FCsv (to_csv Stub.env ans))).
Proof.
  split.
  - apply (proj1 (csv_output_is_deterministic Stub.env Stub.world0 Stub.world1)).
    reflexivity.
  - apply (proj2 (csv_output_is_deterministic Stub.env Stub.world0
                    (main Stub.env Stub.world0).2)
             (fun path f f' => eq_refl) tt tt).
    + vm_compute. reflexivity.
    + vm_compute. reflexivity.
Defined.


(** * Further properties of the driver *)

(** ** The driver, phase by phase *)

(** [main], as the composition of its phases. *)
Lemma main_cases E w :
  (exists e, Client E = Raise e /\ main E w = (Raise e, w)) \/
  (Client E = Ok tt /\
   match policy_run E true (worker_count E) (output_baseline E)
           (output_baseline E) None (after_setup E w) with
   | (Raise e, w2) => main E w = (Raise e, w2)
   | (Ok _, w2) =>
       match policy_run E false (worker_count E) (output_baseline E)
               (output_reform E) (Some (reform E)) w2 with
       | (Raise e, w3) => main E w = (Raise e, w3)
       | (Ok _, w3) =>
           match report E (output_baseline E) (output_reform E) w3 with
           | (Raise e, w4) => main E w = (Raise e, w4)
           | (Ok _, w4) =>
               main E w =
                 (Ok tt, {| trace := trace w4 ++ [EClientClose];
                            fs := fs w4; clock := clock w4 |})
           end
       end
   end).
Proof.
  unfold main. run_monad.
  destruct (Client E) as [[]|e]; run_monad; [right; split; [reflexivity|]|eauto].
  fold (worker_count E) (output_baseline E) (output_reform E).
  rewrite baseline_run_eq, reform_run_eq, <- app_assoc. cbn [app].
  fold (after_setup E w).
  destruct (policy_run E true _ _ _ None (after_setup E w)) as [[[]|e] w2];
    [|reflexivity].
  destruct (policy_run E false _ _ _ _ w2) as [[[]|e] w3]; [|reflexivity].
  destruct (report E _ _ w3) as [[[]|e] w4]; reflexivity.
Qed.

Lemma policy_run_trace E flag n bd od r w :
  trace (policy_run E flag n bd od r w).2 =
    trace w ++ events_of (policy_run E flag n bd od r) w.
Proof.
  destruct (policy_run_events E flag n bd od r w) as (evs & Ht & _).
  now rewrite (events_of_trace _ _ _ Ht).
Qed.

Lemma report_trace E bd rd w :
  trace (report E bd rd w).2 = trace w ++ events_of (report E bd rd) w.
Proof.
  destruct (report_events E bd rd w) as (evs & Ht & _).
  now rewrite (events_of_trace _ _ _ Ht).
Qed.

(** The log of an invocation is the log of its phases, one after the
    other, up to the first that raises. *)
Lemma main_events_of E w :
  Client E = Ok tt ->
  events_of (main E) w =
    [EClientNew; EPrint [AStr "Number of workers = "; AInt (worker_count E)]] ++
    events_of (policy_run E true (worker_count E) (output_baseline E)
                 (output_baseline E) None) (after_setup E w) ++
    match policy_run E true (worker_count E) (output_baseline E)
            (output_baseline E) None (after_setup E w) with
    | (Raise _, _) => []
    | (Ok _, w2) =>
        events_of (policy_run E false (worker_count E) (output_baseline E)
                     (output_reform E) (Some (reform E))) w2 ++
        match policy_run E false (worker_count E) (output_baseline E)
                (output_reform E) (Some (reform E)) w2 with
        | (Raise _, _) => []
        | (Ok _, w3) =>
            events_of (report E (output_baseline E) (output_reform E)) w3 ++
            match report E (output_baseline E) (output_reform E) w3 with
            | (Raise _, _) => []
            | (Ok _, _) => [EClientClose]
            end
        end
    end.
Proof.
  intros Hclient.
  destruct (main_cases E w) as [(e & Hc & _)|[_ H]]; [congruence|].
  pose proof (policy_run_trace E true (worker_count E) (output_baseline E)
                (output_baseline E) None (after_setup E w)) as HtB.
  destruct (policy_run E true _ _ _ None (after_setup E w)) as [[[]|e] w2].
  2: { apply events_of_trace. rewrite H. cbn [snd fst] in *. rewrite HtB.
       cbn [after_setup trace]. now rewrite <- !app_assoc, app_nil_r. }
  pose proof (policy_run_trace E false (worker_count E) (output_baseline E)
                (output_reform E) (Some (reform E)) w2) as HtR.
  destruct (policy_run E false _ _ _ _ w2) as [[[]|e] w3].
  2: { apply events_of_trace. rewrite H. cbn [snd fst] in *. rewrite HtR, HtB.
       cbn [after_setup trace]. now rewrite <- !app_assoc, app_nil_r. }
  pose proof (report_trace E (output_baseline E) (output_reform E) w3) as HtP.
  destruct (report E _ _ w3) as [[[]|e] w4].
  - apply events_of_trace. rewrite H. cbn [snd fst trace] in *.
    rewrite HtP, HtR, HtB. cbn [after_setup trace]. now rewrite <- !app_assoc.
  - apply events_of_trace. rewrite H. cbn [snd fst] in *.
    rewrite HtP, HtR, HtB. cbn [after_setup trace].
    now rewrite <- !app_assoc, app_nil_r.
Qed.

(** ** The order of the steps *)

Lemma policy_run_steps E flag n bd od r w :
  match (policy_run E flag n bd od r w).1 with
  | Ok _ =>
      map step_of (events_of (policy_run E flag n bd od r) w)
        = [SCalibration; SRunner; SPrint]
  | Raise _ =>
      map step_of (events_of (policy_run E flag n bd od r) w) = [] \/
      map step_of (events_of (policy_run E flag n bd od r) w)
        = [SCalibration] \/
      map step_of (events_of (policy_run E flag n bd od r) w)
        = [SCalibration; SRunner]
  end.
Proof.
  destruct (policy_run_events E flag n bd od r w) as (evs & Ht & Hev).
  rewrite (events_of_trace _ _ _ Ht).
  destruct Hev; cbn; auto.
Qed.

Lemma report_steps E bd rd w :
  match (report E bd rd w).1 with
  | Ok _ =>
      map step_of (events_of (report E bd rd) w)
        = [SMacroTable; SPlotAll; SPrint]
  | Raise _ =>
      map step_of (events_of (report E bd rd) w) = [] \/
      map step_of (events_of (report E bd rd) w) = [SMacroTable] \/
      map step_of (events_of (report E bd rd) w) = [SMacroTable; SPlotAll]
  end.
Proof.
  unfold events_of, report, write_csv. run_monad.
  destruct (safe_read_pickle E (os_path_join bd ["TPI"; "TPI_vars.pkl"]) (fs w))
    as [bt|e]; run_monad; [|left; now rewrite drop_all].
  destruct (safe_read_pickle E (os_path_join bd ["model_params.pkl"]) (fs w))
    as [bp|e]; run_monad; [|left; now rewrite drop_all].
  destruct (safe_read_pickle E (os_path_join rd ["TPI"; "TPI_vars.pkl"]) (fs w))
    as [rt|e]; run_monad; [|left; now rewrite drop_all].
  destruct (safe_read_pickle E (os_path_join rd ["model_params.pkl"]) (fs w))
    as [rp|e]; run_monad; [|left; now rewrite drop_all].
  destruct (getattr_obj bp "start_year") as [sy|e]; run_monad;
    [|left; now rewrite drop_all].
  match goal with |- context [macro_table E ?a] =>
    destruct (macro_table E a) as [ans|e] end; run_monad;
    [|right; left; now rewrite drop_app_length].
  match goal with |- context [plot_all E ?a ?b ?c ?f] =>
    destruct (plot_all E a b c f) as [[[]|e] f'] end; run_monad.
  - now rewrite <- !app_assoc, drop_app_length.
  - right; right. now rewrite <- !app_assoc, drop_app_length.
Qed.

(** X1.  The driver is strictly linear: whatever the collaborators do,
    the requests it has made are an initial segment of the twelve
    requests of lines 20-175 in program order (no request is repeated,
    skipped or reordered), and it returns normally exactly when it has
    made all twelve. *)
Theorem main_steps_in_order (E : Env) (w : World) :
  map step_of (events_of (main E) w) `prefix_of` main_steps /\
  ((exists u, (main E w).1 = Ok u) <->
   map step_of (events_of (main E) w) = main_steps).
Proof.
  destruct (main_cases E w) as [(e & Hc & Hm)|[Hc H]].
  { assert (He : events_of (main E) w = [])
      by (apply events_of_trace; rewrite Hm; cbn; now rewrite app_nil_r).
    rewrite He, Hm. cbn. split; [apply prefix_nil|].
    split; [intros [u Hu]; discriminate|discriminate]. }
  rewrite (main_events_of E w Hc).
  pose proof (policy_run_steps E true (worker_count E) (output_baseline E)
                (output_baseline E) None (after_setup E w)) as HB.
  destruct (policy_run E true _ _ _ None (after_setup E w)) as [[[]|e] w2];
    cbn [fst] in HB.
  2: { rewrite H, app_nil_r. cbn [app map step_of fst].
       split; [|split; [intros [u Hu]; discriminate|]];
         destruct HB as [->|[->| ->]];
         try discriminate; unfold main_steps; eexists; reflexivity. }
  pose proof (policy_run_steps E false (worker_count E) (output_baseline E)
                (output_reform E) (Some (reform E)) w2) as HR.
  destruct (policy_run E false _ _ _ _ w2) as [[[]|e] w3]; cbn [fst] in HR.
  2: { rewrite H, app_nil_r. cbn [app map step_of fst]. rewrite map_app, HB.
       split; [|split; [intros [u Hu]; discriminate|]];
         destruct HR as [->|[->| ->]];
         try discriminate; unfold main_steps; eexists; reflexivity. }
  pose proof (report_steps E (output_baseline E) (output_reform E) w3) as HP.
  destruct (report E _ _ w3) as [[[]|e] w4]; cbn [fst] in HP; rewrite H;
    cbn [app map step_of fst]; rewrite !map_app, HB, HR.
  - rewrite HP. cbn. split; [reflexivity|]. split; [reflexivity|eauto].
  - rewrite app_nil_r.
    split; [|split; [intros [u Hu]; discriminate|]];
      destruct HP as [->|[->| ->]];
      try discriminate; unfold main_steps; eexists; reflexivity.
Qed.

(** ** A calibration result that lacks a key *)

(** X2.  When the baseline calibration result lacks one of the five
    keys, the invocation ends with [KeyError] for an absent key right
    after that calibration call: the runner is never called, the reform
    is never calibrated and the client is not released. *)
Theorem main_missing_calibration_key (E : Env) (w : World)
    (defaults : gmap string value) (c : CalibrationObj) (k : string) :
  Client E = Ok tt ->
  json_load E (defaults_path E) = Ok defaults ->
  Calibration E
    (spec_before_calibration E true (worker_count E) (output_baseline E)
       (output_baseline E) defaults) None true = Ok c ->
  k ∈ calibration_keys -> get_dict c !! k = None ->
  exists k',
    k' ∈ calibration_keys /\ get_dict c !! k' = None /\
    (main E w).1 = Raise (KeyError k') /\
    events_of (main E) w =
      [ EClientNew;
        EPrint [AStr "Number of workers = "; AInt (worker_count E)];
        ECalibration
          (spec_before_calibration E true (worker_count E) (output_baseline E)
             (output_baseline E) defaults) None true ].
Proof.
  intros Hclient Hj Hcal Hk Hnone.
  destruct (policy_run_missing_key E true (worker_count E) (output_baseline E)
              (output_baseline E) None (after_setup E w) defaults c k
              Hj Hcal Hk Hnone) as (k' & Hk' & Hn' & Hres & Htr).
  assert (Hev : events_of (policy_run E true (worker_count E)
                  (output_baseline E) (output_baseline E) None) (after_setup E w)
                = [ECalibration
                     (spec_before_calibration E true (worker_count E)
                        (output_baseline E) (output_baseline E) defaults)
                     None true])
    by now apply events_of_trace.
  exists k'. split; [exact Hk'|]. split; [exact Hn'|].
  rewrite (main_events_of E w Hclient), Hev.
  destruct (main_cases E w) as [(e & Hc & _)|[_ H]]; [congruence|].
  destruct (policy_run E true _ _ _ None (after_setup E w)) as [[[]|e] w2];
    cbn [fst snd] in *; [discriminate|].
  rewrite H. cbn [fst snd]. split; [exact Hres | reflexivity].
Qed.

Lemma main_missing_calibration_key_witness :
  exists k',
    k' ∈ calibration_keys /\ Stub.incomplete_dict !! k' = None /\
    (main Fixture.env_missing_key Stub.world0).1 = Raise (KeyError k') /\
    events_of (main Fixture.env_missing_key) Stub.world0 =
      [ EClientNew;
        EPrint [AStr "Number of workers = ";
                AInt (worker_count Fixture.env_missing_key)];
        ECalibration
          (spec_before_calibration Fixture.env_missing_key true
             (worker_count Fixture.env_missing_key)
             (output_baseline Fixture.env_missing_key)
             (output_baseline Fixture.env_missing_key)
             (list_to_map [ ("start_year", VInt 2021);
                            ("frisch", VFloat 4 (-1)) ])) None true ].
Proof.
  apply (main_missing_calibration_key Fixture.env_missing_key Stub.world0
           (list_to_map [ ("start_year", VInt 2021); ("frisch", VFloat 4 (-1)) ])
           {| get_dict := Stub.incomplete_dict |} "mtry_params").
  - reflexivity.
  - vm_compute. reflexivity.
  - reflexivity.
  - unfold calibration_keys. rewrite !elem_of_cons. tauto.
  - vm_compute. reflexivity.
Defined.

(** ** The client *)

(** X3.  On every path at most one client is created and it is released
    at most once, never without having been created; a client is left
    unreleased exactly when its creation succeeded and a later step
    raised. *)
Theorem client_left_open_iff_later_failure (E : Env) (w : World) :
  (closes (events_of (main E) w) <= opens (events_of (main E) w))%nat /\
  (opens (events_of (main E) w) <= 1)%nat /\
  ((opens (events_of (main E) w) = 1%nat /\
    closes (events_of (main E) w) = 0%nat) <->
   (Client E = Ok tt /\ exists e, (main E w).1 = Raise e)).
Proof.
  destruct (main_releases_client_only_on_success E w) as [Hcl Hop].
  rewrite Hcl, Hop.
  destruct (main_cases E w) as [(e & Hc & Hm)|[Hc H]].
  - rewrite Hc, Hm. cbn [fst]. split; [lia|]. split; [lia|].
    split; [intros [H0 _]; lia | intros [H0 _]; discriminate].
  - clear H. rewrite Hc. destruct (main E w).1 as [u|e].
    + split; [lia|]. split; [lia|].
      split; [intros [_ H0]; lia | intros [_ [e0 He]]; discriminate].
    + split; [lia|]. split; [lia|].
      split; [intros _; eauto | intros _; split; reflexivity].
Qed.

(** ** What the runner and the calibration engine are given *)

Lemma updated_params_values {S} (d : gmap string value) (s : S) :
  (exists m, updated_params d s = (Ok m, s) /\
             dom m = list_to_set calibration_keys /\
             forall k, k ∈ calibration_keys -> m !! k = d !! k) \/
  (exists k, updated_params d s = (Raise (KeyError k), s)).
Proof.
  destruct (d !! "etr_params") as [v1|] eqn:H1;
    [|right; destruct (updated_params_missing d s "etr_params")
               as (k & _ & _ & Hk);
      [unfold calibration_keys; rewrite !elem_of_cons; tauto|exact H1|eauto]].
  destruct (d !! "mtrx_params") as [v2|] eqn:H2;
    [|right; destruct (updated_params_missing d s "mtrx_params")
               as (k & _ & _ & Hk);
      [unfold calibration_keys; rewrite !elem_of_cons; tauto|exact H2|eauto]].
  destruct (d !! "mtry_params") as [v3|] eqn:H3;
    [|right; destruct (updated_params_missing d s "mtry_params")
               as (k & _ & _ & Hk);
      [unfold calibration_keys; rewrite !elem_of_cons; tauto|exact H3|eauto]].
  destruct (d !! "mean_income_data") as [v4|] eqn:H4;
    [|right; destruct (updated_params_missing d s "mean_income_data")
               as (k & _ & _ & Hk);
      [unfold calibration_keys; rewrite !elem_of_cons; tauto|exact H4|eauto]].
  destruct (d !! "frac_tax_payroll") as [v5|] eqn:H5;
    [|right; destruct (updated_params_missing d s "frac_tax_payroll")
               as (k & _ & _ & Hk);
      [unfold calibration_keys; rewrite !elem_of_cons; tauto|exact H5|eauto]].
  left. eexists. split; [now apply (updated_params_ok d s v1 v2 v3 v4 v5)|].
  split; [now rewrite dom_list_to_map_L|].
  intros k Hk. apply elem_of_calibration_keys in Hk.
  destruct Hk as [->|[->|[->|[->| ->]]]];
    [rewrite H1|rewrite H2|rewrite H3|rewrite H4|rewrite H5]; reflexivity.
Qed.

Lemma merged_value_lookup E (defaults d updated : gmap string value) k :
  dom updated = list_to_set calibration_keys ->
  (forall k, k ∈ calibration_keys -> updated !! k = d !! k) ->
  (updated ∪ (overrides ∪ (defaults ∪ default_parameters E))) !! k
    = merged_value E defaults d k.
Proof.
  intros Hdom Hval. unfold merged_value. case_bool_decide as Hk.
  - rewrite <- (Hval k Hk).
    assert (Hin : k ∈ dom updated)
      by (rewrite Hdom, elem_of_list_to_set; exact Hk).
    apply elem_of_dom in Hin as [v Hv]. rewrite Hv.
    now apply lookup_union_Some_l.
  - rewrite (not_calibrated_lookup updated) by assumption.
    destruct (overrides !! k) as [v|] eqn:Ho.
    + now apply lookup_union_Some_l.
    + rewrite (lookup_union_r _ _ _ Ho).
      destruct (defaults !! k) as [v|] eqn:Hd.
      * now apply lookup_union_Some_l.
      * now rewrite (lookup_union_r _ _ _ Hd).
Qed.

(** The specification a run hands to the runner, key by key. *)
Lemma policy_run_merged E flag n bd od r w p :
  runner_specs (events_of (policy_run E flag n bd od r) w) = [p] ->
  exists defaults c,
    json_load E (defaults_path E) = Ok defaults /\
    Calibration E (spec_before_calibration E flag n bd od defaults) r true
      = Ok c /\
    forall k, params p !! k = merged_value E defaults (get_dict c) k.
Proof.
  unfold events_of, policy_run. run_monad.
  destruct (json_load E (defaults_path E)) as [defaults|e] eqn:Hj; run_monad;
    [|rewrite drop_all; discriminate].
  fold (spec_before_calibration E flag n bd od defaults).
  destruct (Calibration E _ r true) as [c|e] eqn:Hc; run_monad;
    [|rewrite drop_app_length; discriminate].
  match goal with |- context [updated_params ?d ?s] =>
    destruct (updated_params_values d s) as [(m & -> & Hdom & Hval)|(k & ->)] end;
    run_monad; [|rewrite drop_app_length; discriminate].
  assert (Hp : forall l : list event,
    runner_specs
      (drop (length (trace w))
         (trace w ++
            ECalibration (spec_before_calibration E flag n bd od defaults) r true
            :: ERunner
                 (update_specifications
                    (spec_before_calibration E flag n bd od defaults) m) true
            :: l)) = [p] ->
    runner_specs l = [] ->
    exists defaults0 c0,
      Ok defaults = Ok defaults0 /\
      Calibration E (spec_before_calibration E flag n bd od defaults0) r true
        = Ok c0 /\
      forall k, params p !! k = merged_value E defaults0 (get_dict c0) k).
  { intros l Hl Hnil. rewrite drop_app_length in Hl. cbn in Hl.
    rewrite Hnil in Hl. injection Hl as <-.
    exists defaults, c. split; [reflexivity|]. split; [exact Hc|].
    intros k. cbn [update_specifications spec_before_calibration
                   Specifications params].
    now apply merged_value_lookup. }
  match goal with |- context [runner E ?q true ?f] =>
    destruct (runner E q true f) as [[[]|e] f'] end; run_monad;
    rewrite <- !app_assoc; cbn [app]; intros Hl.
  - now apply (Hp _ Hl).
  - now apply (Hp _ Hl).
Qed.

(** X4.  The specification a run hands to the runner holds, for each of
    the five calibrated keys, the value of that run's calibration result,
    and for every other key the first value found among the overrides of
    lines 53-59, the JSON defaults, and the library's defaults, in that
    order: a later merge always wins over an earlier one. *)
Theorem runner_spec_merge_precedence (E : Env) (n : Z) (bd rd : string)
    (w : World) (p : Spec) :
  (runner_specs (events_of (baseline_run E n bd) w) = [p] ->
   exists defaults c,
     json_load E (defaults_path E) = Ok defaults /\
     Calibration E (spec_before_calibration E true n bd bd defaults) None true
       = Ok c /\
     forall k, params p !! k = merged_value E defaults (get_dict c) k) /\
  (runner_specs (events_of (reform_run E n bd rd) w) = [p] ->
   exists defaults c,
     json_load E (defaults_path E) = Ok defaults /\
     Calibration E (spec_before_calibration E false n bd rd defaults)
       (Some (reform E)) true = Ok c /\
     forall k, params p !! k = merged_value E defaults (get_dict c) k).
Proof.
  rewrite baseline_run_eq, reform_run_eq.
  split; apply policy_run_merged.
Qed.

Lemma runner_spec_merge_precedence_witness :
  exists p,
    runner_specs
      (events_of (baseline_run Stub.env 7 "/out/base") Stub.world0) = [p] /\
    exists defaults c,
      json_load Stub.env (defaults_path Stub.env) = Ok defaults /\
      Calibration Stub.env
        (spec_before_calibration Stub.env true 7 "/out/base" "/out/base"
           defaults) None true = Ok c /\
      forall k, params p !! k = merged_value Stub.env defaults (get_dict c) k.
Proof.
  eexists. split.
  - vm_compute. reflexivity.
  - apply (proj1 (runner_spec_merge_precedence Stub.env 7 "/out/base"
                    "/out/reform" Stub.world0 _)).
    vm_compute. reflexivity.
Defined.

(** A run calls the calibration engine at most once, on the
    specification merged so far, and exactly once when it completes. *)
Lemma run_events_calibration E flag n bd od r res evs :
  run_events E flag n bd od r res evs ->
  (calibrations evs = [] /\ res <> Ok tt) \/
  exists defaults,
    json_load E (defaults_path E) = Ok defaults /\
    calibrations evs = [(spec_before_calibration E flag n bd od defaults, r)].
Proof.
  destruct 1; cbn; try (left; split; [reflexivity|discriminate]); right; eauto.
Qed.

(** X5.  When the calibration engine is called twice, the first call is
    the baseline's, without a reform, and the second is the reform's,
    with the reform class of line 94; the two specifications it is given
    hold exactly the same parameters (the library's defaults overlaid by
    the JSON defaults and then by the overrides), so the reform is the
    only difference in what the two estimations start from. *)
Theorem calibrations_start_from_same_parameters (E : Env) (w : World)
    (p p2 : Spec) (r r2 : option Reform) :
  calibrations (events_of (main E) w) = [(p, r); (p2, r2)] ->
  r = None /\ r2 = Some (reform E) /\
  baseline p = true /\ baseline p2 = false /\
  params p = params p2 /\
  exists defaults,
    json_load E (defaults_path E) = Ok defaults /\
    params p = overrides ∪ (defaults ∪ default_parameters E).
Proof.
  destruct (main_run E w) as (evs & Ht & Hev).
  rewrite (events_of_trace _ _ _ Ht). clear Ht. intros Hcal.
  assert (Hboth : forall res1 res2 evs1 evs2,
    run_events E true (worker_count E) (output_baseline E)
      (output_baseline E) None res1 evs1 ->
    run_events E false (worker_count E) (output_baseline E)
      (output_reform E) (Some (reform E)) res2 evs2 ->
    calibrations evs1 ++ calibrations evs2 = [(p, r); (p2, r2)] ->
    r = None /\ r2 = Some (reform E) /\
    baseline p = true /\ baseline p2 = false /\
    params p = params p2 /\
    exists defaults,
      json_load E (defaults_path E) = Ok defaults /\
      params p = overrides ∪ (defaults ∪ default_parameters E)).
  { intros res1 res2 evs1 evs2 H1 H2 Heq.
    apply run_events_calibration in H1. apply run_events_calibration in H2.
    destruct H1 as [[H1 _]|(d1 & Hj1 & H1)]; rewrite H1 in Heq;
      destruct H2 as [[H2 _]|(d2 & Hj2 & H2)]; rewrite H2 in Heq;
      try discriminate Heq.
    injection Heq as <- <- <- <-.
    rewrite Hj1 in Hj2. injection Hj2 as <-.
    repeat (split; [reflexivity|]). exists d1. split; [exact Hj1|reflexivity]. }
  destruct Hev as [e Hc|e evs1 Hc H1|e evs1 evs2 Hc H1 H2
                  |e evs1 evs2 evs3 Hc H1 H2 H3|evs1 evs2 evs3 Hc H1 H2 H3];
    cbn [calibrations] in Hcal; rewrite ?calibrations_app in Hcal.
  - discriminate Hcal.
  - apply run_events_calibration in H1.
    destruct H1 as [[H1 _]|(d1 & _ & H1)]; rewrite H1 in Hcal;
      discriminate Hcal.
  - now apply (Hboth _ _ evs1 evs2 H1 H2).
  - apply reporting_quiet in H3. destruct H3 as (_ & _ & _ & H3).
    rewrite H3, app_nil_r in Hcal. now apply (Hboth _ _ evs1 evs2 H1 H2).
  - apply reporting_quiet in H3. destruct H3 as (_ & _ & _ & H3).
    rewrite H3 in Hcal. cbn [calibrations app] in Hcal.
    rewrite app_nil_r in Hcal. now apply (Hboth _ _ evs1 evs2 H1 H2).
Qed.

Lemma calibrations_start_from_same_parameters_witness :
  exists p r p2 r2,
    calibrations (events_of (main Stub.env) Stub.world0) = [(p, r); (p2, r2)] /\
    r = None /\ r2 = Some (reform Stub.env) /\
    baseline p = true /\ baseline p2 = false /\
    params p = params p2 /\
    exists defaults,
      json_load Stub.env (defaults_path Stub.env) = Ok defaults /\
      params p = overrides ∪ (defaults ∪ default_parameters Stub.env).
Proof.
  eexists _, _, _, _. split.
  - vm_compute. reflexivity.
  - apply (calibrations_start_from_same_parameters Stub.env Stub.world0).
    vm_compute. reflexivity.
Defined.

(** ** Paths *)

Lemma append_assoc (a b c : string) :
  String.append (String.append a b) c = String.append a (String.append b c).
Proof.
  induction a as [|ch a IH]; [reflexivity|].
  change (String ch (String.append (String.append a b) c)
          = String ch (String.append a (String.append b c))).
  now f_equal.
Qed.

Lemma append_inj_l (a b c : string) :
  String.append a b = String.append a c -> b = c.
Proof.
  induction a as [|ch a IH]; intros H; [exact H|].
  change (String ch (String.append a b) = String ch (String.append a c)) in H.
  injection H as H. now apply IH.
Qed.

Lemma ends_with_sep_append (a b : string) :
  b <> "" -> ends_with_sep (String.append a b) = ends_with_sep b.
Proof.
  intros Hb. induction a as [|ch a IH]; [reflexivity|].
  change (ends_with_sep (String ch (String.append a b)) = ends_with_sep b).
  rewrite <- IH.
  destruct (String.append a b) eqn:Hab; [|reflexivity].
  destruct a; [now contradiction Hb | discriminate Hab].
Qed.

(** Joining a relative component [b] that is not empty: it is appended,
    after a separator unless the path is empty or ends with one. *)
Lemma join_step_relative (path b : string) :
  String.prefix "/" b = false ->
  join_step path b =
    String.append path
      (if String.eqb path "" || ends_with_sep path then b
       else String.append "/" b).
Proof.
  intros Hb. unfold join_step. rewrite Hb.
  now destruct (String.eqb path "" || ends_with_sep path).
Qed.

Lemma append_not_empty (a b : string) :
  b <> "" -> String.eqb (String.append a b) "" = false.
Proof.
  intros Hb. destruct a; [|reflexivity].
  destruct b; [now contradiction Hb | reflexivity].
Qed.

(** Joining a relative component to a path that ends in a name. *)
Lemma join_step_after_name (a s b : string) :
  s <> "" -> ends_with_sep s = false -> String.prefix "/" b = false ->
  join_step (String.append a s) b
    = String.append (String.append a s) (String.append "/" b).
Proof.
  intros Hs Hsep Hb. rewrite (join_step_relative _ _ Hb).
  now rewrite (append_not_empty a s Hs), (ends_with_sep_append a s Hs), Hsep.
Qed.

(** The two output directories share everything up to their last
    component. *)
Lemma output_dirs_shape E :
  exists x sB sR,
    output_baseline E = String.append x sB /\
    output_reform E = String.append x sR /\
    ((sB = "OUTPUT_BASELINE" /\ sR = "OUTPUT_REFORM") \/
     (sB = "/OUTPUT_BASELINE" /\ sR = "/OUTPUT_REFORM")).
Proof.
  unfold output_baseline, output_reform, os_path_join. cbn [fold_left].
  set (x := join_step (CUR_DIR E) "OG-UK-Example"). exists x.
  rewrite (join_step_relative x "OUTPUT_BASELINE") by reflexivity.
  rewrite (join_step_relative x "OUTPUT_REFORM") by reflexivity.
  destruct (String.eqb x "" || ends_with_sep x).
  - exists "OUTPUT_BASELINE", "OUTPUT_REFORM". auto.
  - exists "/OUTPUT_BASELINE", "/OUTPUT_REFORM". auto.
Qed.

Lemma output_dirs_distinct E : output_baseline E <> output_reform E.
Proof.
  destruct (output_dirs_shape E) as (x & sB & sR & -> & -> & Hs).
  intros H. apply append_inj_l in H.
  destruct Hs as [[-> ->]|[-> ->]]; discriminate H.
Qed.

(** X6.  Wherever the script lies, the baseline and the reform write to
    different directories, and the artifacts the reporting step loads
    for the one and for the other lie at different paths: the directory
    followed by [/TPI/TPI_vars.pkl] and by [/model_params.pkl]. *)
Theorem output_paths_distinct (E : Env) :
  output_baseline E <> output_reform E /\
  os_path_join (output_baseline E) ["TPI"; "TPI_vars.pkl"]
    = String.append (output_baseline E) "/TPI/TPI_vars.pkl" /\
  os_path_join (output_reform E) ["TPI"; "TPI_vars.pkl"]
    = String.append (output_reform E) "/TPI/TPI_vars.pkl" /\
  os_path_join (output_baseline E) ["model_params.pkl"]
    = String.append (output_baseline E) "/model_params.pkl" /\
  os_path_join (output_reform E) ["model_params.pkl"]
    = String.append (output_reform E) "/model_params.pkl" /\
  os_path_join (output_baseline E) ["TPI"; "TPI_vars.pkl"]
    <> os_path_join (output_reform E) ["TPI"; "TPI_vars.pkl"] /\
  os_path_join (output_baseline E) ["model_params.pkl"]
    <> os_path_join (output_reform E) ["model_params.pkl"].
Proof.
  destruct (output_dirs_shape E) as (x & sB & sR & HB & HR & Hs).
  assert (Hjoin : forall s,
    s = "OUTPUT_BASELINE" \/ s = "OUTPUT_REFORM" \/
    s = "/OUTPUT_BASELINE" \/ s = "/OUTPUT_REFORM" ->
    (os_path_join (String.append x s) ["TPI"; "TPI_vars.pkl"]
       = String.append (String.append x s) "/TPI/TPI_vars.pkl") /\
    (os_path_join (String.append x s) ["model_params.pkl"]
       = String.append (String.append x s) "/model_params.pkl")).
  { intros s Hs'. unfold os_path_join. cbn [fold_left].
    assert (Hne : s <> "") by (destruct Hs' as [->|[->|[->| ->]]]; discriminate).
    assert (Hsep : ends_with_sep s = false)
      by (destruct Hs' as [->|[->|[->| ->]]]; reflexivity).
    rewrite !(join_step_after_name x s) by (assumption || reflexivity).
    split; [|reflexivity].
    change (String.append "/" "TPI") with "/TPI".
    rewrite (append_assoc x s "/TPI").
    rewrite (join_step_after_name x (String.append s "/TPI")).
    - now rewrite !append_assoc.
    - destruct s; [now contradiction Hne | discriminate].
    - rewrite (ends_with_sep_append s "/TPI"); [reflexivity | discriminate].
    - reflexivity. }
  rewrite HB, HR.
  destruct (Hjoin sB ltac:(tauto)) as [HB1 HB2].
  destruct (Hjoin sR ltac:(tauto)) as [HR1 HR2].
  rewrite HB1, HB2, HR1, HR2. repeat (split; [try reflexivity|]).
  - intros H. apply append_inj_l in H.
    destruct Hs as [[-> ->]|[-> ->]]; discriminate H.
  - intros H. rewrite !append_assoc in H. apply append_inj_l in H.
    destruct Hs as [[-> ->]|[-> ->]]; discriminate H.
  - intros H. rewrite !append_assoc in H. apply append_inj_l in H.
    destruct Hs as [[-> ->]|[-> ->]]; discriminate H.
Qed.

(** ** The dotted path of the command line *)

Lemma append_empty_r (s : string) : String.append s "" = s.
Proof.
  induction s as [|c s IH]; [reflexivity|].
  change (String c (String.append s "") = String c s). now f_equal.
Qed.

Lemma split_acc_not_nil sep s cur : split_acc sep s cur <> [].
Proof.
  revert cur. induction s as [|c s IH]; intros cur; cbn [split_acc];
    [discriminate|].
  destruct (Ascii.eqb c sep); [discriminate | apply IH].
Qed.

Lemma concat_cons sep x l :
  l <> [] ->
  String.concat sep (x :: l)
    = String.append x (String.append sep (String.concat sep l)).
Proof. destruct l; [contradiction | reflexivity]. Qed.

Lemma concat_split_acc s cur :
  String.concat "." (split_acc "." s cur) = String.append cur s.
Proof.
  revert cur. induction s as [|c s IH]; intros cur; cbn [split_acc].
  - cbn [String.concat]. now rewrite append_empty_r.
  - destruct (Ascii.eqb_spec c ".") as [->|Hc].
    + rewrite concat_cons by apply split_acc_not_nil.
      now rewrite IH.
    + rewrite IH, append_assoc. reflexivity.
Qed.

Lemma no_dot_append a b :
  no_dot (String.append a b) = no_dot a && no_dot b.
Proof.
  induction a as [|c a IH]; [reflexivity|].
  change (negb (Ascii.eqb c ".") && no_dot (String.append a b)
          = negb (Ascii.eqb c ".") && no_dot a && no_dot b).
  rewrite IH. now destruct (negb (Ascii.eqb c ".")).
Qed.

Lemma last_cons_not_nil {A} (x : A) l d :
  l <> [] -> List.last (x :: l) d = List.last l d.
Proof. destruct l; [contradiction | reflexivity]. Qed.

Lemma last_split_acc_no_dot s cur :
  no_dot cur = true -> no_dot (List.last (split_acc "." s cur) "") = true.
Proof.
  revert cur. induction s as [|c s IH]; intros cur Hcur; cbn [split_acc].
  - exact Hcur.
  - destruct (Ascii.eqb c ".") eqn:Hc.
    + rewrite last_cons_not_nil by apply split_acc_not_nil. now apply IH.
    + apply IH. rewrite no_dot_append, Hcur. cbn. now rewrite Hc.
Qed.

Lemma split_acc_no_dot s cur :
  no_dot s = true -> split_acc "." s cur = [String.append cur s].
Proof.
  revert cur. induction s as [|c s IH]; intros cur Hs; cbn [split_acc].
  - now rewrite append_empty_r.
  - cbn [no_dot] in Hs. apply andb_true_iff in Hs as [Hc Hs].
    apply negb_true_iff in Hc. rewrite Hc, (IH _ Hs), append_assoc.
    reflexivity.
Qed.

Lemma split_acc_dot s cur :
  no_dot s = false -> exists x y l, split_acc "." s cur = x :: y :: l.
Proof.
  revert cur. induction s as [|c s IH]; intros cur Hs; [discriminate|].
  cbn [split_acc]. cbn [no_dot] in Hs.
  destruct (Ascii.eqb c ".") eqn:Hc.
  - destruct (split_acc "." s "") as [|y l] eqn:Hl;
      [now apply split_acc_not_nil in Hl|]. eauto.
  - apply IH. exact Hs.
Qed.

Lemma concat_snoc sep l x :
  l <> [] ->
  String.concat sep (l ++ [x])
    = String.append (String.concat sep l) (String.append sep x).
Proof.
  induction l as [|y l IH]; [contradiction|]. intros _.
  destruct l as [|z l]; [reflexivity|].
  change (String.concat sep ((y :: z :: l) ++ [x]))
    with (String.append y (String.append sep (String.concat sep ((z :: l) ++ [x])))).
  rewrite IH by discriminate.
  change (String.concat sep (y :: z :: l))
    with (String.append y (String.append sep (String.concat sep (z :: l)))).
  now rewrite !append_assoc.
Qed.

(** X7.  Lines 191-192 cut the command-line argument at its last dot:
    the object name is what follows the last dot and holds no dot, the
    module is what precedes it, and the two put back together with a dot
    give the argument again; an argument without a dot gives an empty
    module name and is itself the object name.  Joining all the parts
    with dots always gives the argument back. *)
Theorem reform_path_round_trip (s : string) :
  join_dot (split_dot s) = s /\
  no_dot (List.last (split_dot s) "") = true /\
  (no_dot s = true ->
   join_dot (removelast (split_dot s)) = "" /\ List.last (split_dot s) "" = s) /\
  (no_dot s = false ->
   String.append (join_dot (removelast (split_dot s)))
     (String.append "." (List.last (split_dot s) "")) = s).
Proof.
  unfold join_dot, split_dot.
  split; [apply (concat_split_acc s "")|].
  split; [now apply last_split_acc_no_dot|]. split.
  - intros Hs. rewrite (split_acc_no_dot s "" Hs). now split.
  - intros Hs. destruct (split_acc_dot s "" Hs) as (x & y & l & Hl).
    pose proof (concat_split_acc s "") as Hcat.
    assert (Hne : split_acc "." s "" <> []) by apply split_acc_not_nil.
    rewrite (app_removelast_last "" Hne) in Hcat at 1.
    rewrite concat_snoc in Hcat; [exact Hcat|].
    rewrite Hl. cbn [removelast]. destruct l; discriminate.
Qed.

Lemma reform_path_round_trip_witness :
  (join_dot (removelast (split_dot "reform")) = "" /\
   List.last (split_dot "reform") "" = "reform") /\
  String.append (join_dot (removelast (split_dot "pkg.reforms.ubi_reform")))
    (String.append "." (List.last (split_dot "pkg.reforms.ubi_reform") ""))
    = "pkg.reforms.ubi_reform".
Proof.
  split.
  - apply (proj1 (proj2 (proj2 (reform_path_round_trip "reform")))).
    reflexivity.
  - apply (proj2 (proj2 (proj2 (reform_path_round_trip "pkg.reforms.ubi_reform")))).
    reflexivity.
Defined.

Example reform_path_of_three_parts :
  join_dot (removelast (split_dot "pkg.reforms.ubi_reform")) = "pkg.reforms" /\
  List.last (split_dot "pkg.reforms.ubi_reform") "" = "ubi_reform".
Proof. vm_compute. split; reflexivity. Qed.

(** ** The reform transformation, on any tree *)

(** Once the five attributes are found, what is left of [lower_pa] is the
    method call on the object they lead to. *)
Lemma lower_pa_resolved upd h parameters a :
  resolve h parameters amount_path = Some a ->
  lower_pa upd parameters h =
    bind (update upd a "2018" (VInt 10000)) (fun _ => ret parameters) h.
Proof.
  unfold amount_path; cbn [resolve]. intros Hpath.
  destruct (h !! parameters) as [[c0|]|] eqn:H0; try discriminate.
  destruct (c0 !! "tax") as [o1|] eqn:A1; try discriminate.
  destruct (h !! o1) as [[c1|]|] eqn:H1; try discriminate.
  destruct (c1 !! "income_tax") as [o2|] eqn:A2; try discriminate.
  destruct (h !! o2) as [[c2|]|] eqn:H2; try discriminate.
  destruct (c2 !! "allowances") as [o3|] eqn:A3; try discriminate.
  destruct (h !! o3) as [[c3|]|] eqn:H3; try discriminate.
  destruct (c3 !! "personal_allowance") as [o4|] eqn:A4; try discriminate.
  destruct (h !! o4) as [[c4|]|] eqn:H4; try discriminate.
  destruct (c4 !! "amount") as [o5|] eqn:A5; try discriminate.
  injection Hpath as ->.
  unfold lower_pa.
  rewrite (bind_ok _ _ _ _ _ (getattr_node _ _ _ _ _ H0 A1)).
  rewrite (bind_ok _ _ _ _ _ (getattr_node _ _ _ _ _ H1 A2)).
  rewrite (bind_ok _ _ _ _ _ (getattr_node _ _ _ _ _ H2 A3)).
  rewrite (bind_ok _ _ _ _ _ (getattr_node _ _ _ _ _ H3 A4)).
  now rewrite (bind_ok _ _ _ _ _ (getattr_node _ _ _ _ _ H4 A5)).
Qed.

(** X8.  [lower_pa] changes the tree in one step or not at all.  It
    returns normally only when the five attributes lead to a parameter
    and the engine's update of it succeeds; it then returns its argument
    and that parameter is the one object overwritten.  In every other
    case (an attribute is missing, the amount is not a parameter, the
    update is refused) it raises and the tree is exactly as it was. *)
Theorem lower_pa_all_or_nothing (upd : update_method) (h : pheap)
    (parameters : loc) :
  match lower_pa upd parameters h with
  | (Ok r, h') =>
      r = parameters /\
      exists a vs vs',
        resolve h parameters amount_path = Some a /\
        h !! a = Some (PParam vs) /\
        upd "2018" (VInt 10000) vs = Ok vs' /\
        h' = <[a := PParam vs']> h
  | (Raise _, h') => h' = h
  end.
Proof.
  destruct (resolve h parameters amount_path) as [a|] eqn:Hpath.
  - rewrite (lower_pa_resolved upd h parameters a Hpath).
    unfold bind, update, ret.
    destruct (h !! a) as [[children|vs]|] eqn:Ha; try reflexivity.
    destruct (upd "2018" (VInt 10000) vs) as [vs'|e] eqn:Hupd; [|reflexivity].
    split; [reflexivity|]. exists a, vs, vs'. auto.
  - destruct (lower_pa_missing upd h parameters Hpath) as [attr ->].
    reflexivity.
Qed.

(** Where the amount is a node, the method call is what fails. *)
Example lower_pa_amount_is_node :
  lower_pa spec_update 1%positive Fixture.tree_amount_is_node
    = (Raise (AttributeError "update"), Fixture.tree_amount_is_node).
Proof. vm_compute. reflexivity. Qed.

(** ** The reporting step, when it fails *)

(** X9.  The reporting step asks for nothing and writes nothing until
    its four artifacts are loaded and the baseline's start year is read:
    if it ends without having called [macro_table], it has raised and
    the world is exactly as it was; in particular, loaded baseline
    parameters without a [start_year] give [AttributeError] before any
    table is computed. *)
Theorem report_fails_cleanly_before_table (E : Env) (bd rd : string)
    (w : World) :
  (macro_calls (events_of (report E bd rd) w) = [] ->
   (report E bd rd w).2 = w /\ exists e, (report E bd rd w).1 = Raise e) /\
  (forall bt bp rt rp,
     safe_read_pickle E (os_path_join bd ["TPI"; "TPI_vars.pkl"]) (fs w) = Ok bt ->
     safe_read_pickle E (os_path_join bd ["model_params.pkl"]) (fs w) = Ok bp ->
     safe_read_pickle E (os_path_join rd ["TPI"; "TPI_vars.pkl"]) (fs w) = Ok rt ->
     safe_read_pickle E (os_path_join rd ["model_params.pkl"]) (fs w) = Ok rp ->
     bp !! "start_year" = None ->
     report E bd rd w = (Raise (AttributeError "start_year"), w)).
Proof.
  split.
  - unfold events_of, report, write_csv. run_monad.
    destruct (safe_read_pickle E (os_path_join bd ["TPI"; "TPI_vars.pkl"]) (fs w))
      as [bt|e]; run_monad; [|eauto].
    destruct (safe_read_pickle E (os_path_join bd ["model_params.pkl"]) (fs w))
      as [bp|e]; run_monad; [|eauto].
    destruct (safe_read_pickle E (os_path_join rd ["TPI"; "TPI_vars.pkl"]) (fs w))
      as [rt|e]; run_monad; [|eauto].
    destruct (safe_read_pickle E (os_path_join rd ["model_params.pkl"]) (fs w))
      as [rp|e]; run_monad; [|eauto].
    destruct (getattr_obj bp "start_year") as [sy|e]; run_monad; [|eauto].
    match goal with |- context [macro_table E ?a] =>
      destruct (macro_table E a) as [ans|e] end; run_monad;
      [|rewrite drop_app_length; discriminate].
    match goal with |- context [plot_all E ?a ?b ?c ?f] =>
      destruct (plot_all E a b c f) as [[[]|e] f'] end; run_monad;
      rewrite <- !app_assoc, drop_app_length; discriminate.
  - intros bt bp rt rp Hbt Hbp Hrt Hrp Hsy.
    unfold report, getattr_obj. run_monad.
    now rewrite Hbt, Hbp, Hrt, Hrp, Hsy.
Qed.

Lemma report_fails_cleanly_before_table_witness :
  ((report Fixture.env_no_start_year "/out/base" "/out/reform" Stub.world0).2
     = Stub.world0 /\
   exists e,
     (report Fixture.env_no_start_year "/out/base" "/out/reform" Stub.world0).1
       = Raise e) /\
  report Fixture.env_no_start_year "/out/base" "/out/reform" Stub.world0
    = (Raise (AttributeError "start_year"), Stub.world0).
Proof.
  split.
  - apply (proj1 (report_fails_cleanly_before_table Fixture.env_no_start_year
                    "/out/base" "/out/reform" Stub.world0)).
    vm_compute. reflexivity.
  - apply (proj2 (report_fails_cleanly_before_table Fixture.env_no_start_year
                    "/out/base" "/out/reform" Stub.world0) ∅ ∅ ∅ ∅);
      reflexivity.
Defined.



(** ** The entry block, in any namespace *)

(** X11.  Importing [ArgumentParser] would not be enough to run the
    simulation from the command line: in whatever namespace the entry
    block runs and whatever the arguments, it ends in an exception
    without creating a client, calibrating, calling the runner or asking
    for a table. *)
Theorem entry_never_simulates (globals : list string) (E : Env)
    (argv : list string) (w : World) :
  (exists e, (entry globals E argv w).1 = Raise e) /\
  opens (events_of (entry globals E argv) w) = 0%nat /\
  calibrations (events_of (entry globals E argv) w) = [] /\
  runner_specs (events_of (entry globals E argv) w) = [] /\
  macro_calls (events_of (entry globals E argv) w) = [].
Proof.
  destruct (entry_never_enters_main globals E argv w) as [Hres [-> | ->]];
    (split; [exact Hres|]); repeat split.
Qed.

(** ** Across the phases *)

Lemma plot_calls_app t1 t2 :
  plot_calls (t1 ++ t2) = plot_calls t1 ++ plot_calls t2.
Proof.
  induction t1 as [|e t1 IH]; [reflexivity|].
  destruct e; cbn [app plot_calls]; rewrite IH; reflexivity.
Qed.

Lemma run_events_no_plot E flag n bd od r res evs :
  run_events E flag n bd od r res evs -> plot_calls evs = [].
Proof. destruct 1; reflexivity. Qed.

(** X12.  In a completed invocation the plots compare exactly the two
    directories the runs wrote to: the runner was called twice, and
    [plot_all] once, with the output directory of the first
    specification as baseline directory, that of the second as reform
    directory, and [OG-UK_example_plots] beside the script as target;
    the reform specification names the baseline's output directory as
    its [baseline_dir]. *)
Theorem plots_compare_the_two_runs (E : Env) (w w' : World) (u : unit) :
  main E w = (Ok u, w') ->
  exists p p2,
    runner_specs (events_of (main E) w) = [p; p2] /\
    plot_calls (events_of (main E) w) =
      [(output_base p, output_base p2,
        os_path_join (CUR_DIR E) ["OG-UK_example_plots"])] /\
    baseline_dir p2 = output_base p /\
    output_base p <> output_base p2.
Proof.
  intros Hmain.
  destruct (main_ok_inv E w u w' Hmain)
    as (w1 & w2 & w3 & w4 & Ht1 & Hrun1 & Hrun2 & Hrep & Ht' & _).
  destruct (report_ok _ _ _ _ _ _ Hrep)
    as (bt & bp & rt & rp & sy & ans & f & _ & _ & _ & _ & _ & _ & Ht4 & _).
  destruct (policy_run_events E true (worker_count E) (output_baseline E)
              (output_baseline E) None w1) as (evs1 & Ht2 & He1).
  destruct (policy_run_events E false (worker_count E) (output_baseline E)
              (output_reform E) (Some (reform E)) w2) as (evs2 & Ht3 & He2).
  rewrite Hrun1 in Ht2, He1. rewrite Hrun2 in Ht3, He2.
  cbn [fst snd] in Ht2, He1, Ht3, He2.
  pose proof (run_events_no_plot _ _ _ _ _ _ _ _ He1) as Hp1.
  pose proof (run_events_no_plot _ _ _ _ _ _ _ _ He2) as Hp2.
  apply run_events_runner_done in He1 as (d1 & u1 & _ & _ & Hr1).
  apply run_events_runner_done in He2 as (d2 & u2 & _ & _ & Hr2).
  erewrite events_of_trace
    by (rewrite Hmain; cbn [snd];
        rewrite Ht', Ht4, Ht3, Ht2, Ht1, <- !app_assoc; reflexivity).
  eexists _, _. split; [|split; [|split]].
  - rewrite !runner_specs_app, Hr1, Hr2. reflexivity.
  - rewrite !plot_calls_app, Hp1, Hp2. reflexivity.
  - reflexivity.
  - cbn [update_specifications spec_before_calibration Specifications
         output_base].
    apply output_dirs_distinct.
Qed.

Lemma plots_compare_the_two_runs_witness :
  exists p p2,
    runner_specs (events_of (main Stub.env) Stub.world0) = [p; p2] /\
    plot_calls (events_of (main Stub.env) Stub.world0) =
      [(output_base p, output_base p2,
        os_path_join (CUR_DIR Stub.env) ["OG-UK_example_plots"])] /\
    baseline_dir p2 = output_base p /\
    output_base p <> output_base p2.
Proof.
  apply (plots_compare_the_two_runs Stub.env Stub.world0
           (main Stub.env Stub.world0).2 tt).
  vm_compute. reflexivity.
Defined.

Lemma run_events_full_solve E flag n bd od r res evs :
  run_events E flag n bd od r res evs -> Forall full_solve evs.
Proof. destruct 1; repeat constructor. Qed.

Lemma reporting_full_solve evs :
  Forall reporting_event evs -> Forall full_solve evs.
Proof.
  intros H. eapply Forall_impl; [exact H|].
  intros e He. destruct e; cbn in He; try contradiction; exact I.
Qed.

(** X13.  On every path, each call of the calibration engine asks for
    the tax functions to be estimated and each call of the runner asks
    for the full time path: the driver never passes [False] for
    [estimate_tax_functions] or [time_path]. *)
Theorem main_always_full_solve (E : Env) (w : World) :
  Forall full_solve (events_of (main E) w).
Proof.
  destruct (main_run E w) as (evs & Ht & Hev).
  rewrite (events_of_trace _ _ _ Ht). clear Ht.
  destruct Hev as [e Hc|e evs1 Hc H1|e evs1 evs2 Hc H1 H2
                  |e evs1 evs2 evs3 Hc H1 H2 H3|evs1 evs2 evs3 Hc H1 H2 H3];
    repeat match goal with
      | H : run_events _ _ _ _ _ _ _ _ |- _ => apply run_events_full_solve in H
      | H : Forall reporting_event _ |- _ => apply reporting_full_solve in H
      end;
    repeat (apply Forall_cons; split; [exact I|]);
    repeat (apply Forall_app; split); try assumption; repeat constructor.
Qed.
